(** * OpenAPIBackend: a shallow embedding of [src/backend.ts]

    The class [OpenAPIBackend] is embedded as a record of its fields
    together with its methods written in a small state-and-exception
    monad.  The state is the instance ([this]) and the sequence of
    observable events of a run: console warnings, invocations of the
    request validator and invocations of registered handlers.

    JavaScript objects used as string-keyed maps are association lists
    of their own properties in enumeration order, because the code
    depends on that order ([Object.keys(content)[0]], [for ... in]):
    names that are array indices come first, in ascending order, then
    the other names in the order of their creation; an assignment keeps
    that order.  A read with a computed name also finds the members that
    a plain object inherits from [Object.prototype]; where the code
    reads the handler table or a content map under a name it is given,
    the model does too.  Numbers are integers.  A handler or a validate
    predicate is a function of its arguments that returns or throws; it
    does not write to the context or to the instance.

    The router, the validator, the document parser, the status-code
    helper of [utils.ts] and the JSON-schema mock generator are
    collaborators of this file; they enter as the fields of
    [Externals]. *)

From Stdlib Require Import String List ZArith Bool Lia DecimalString Decimal.
Import ListNotations.

Set Warnings "-register-all".
Set Implicit Arguments.
Open Scope string_scope.

(** ** JavaScript values *)

Inductive JSValue : Type :=
| JUndefined
| JNull
| JBool (b : bool)
| JNum (n : Z)
| JStr (s : string)
| JArr (items : list JSValue)
| JObj (fields : list (string * JSValue))
| JHost (id : nat).   (* an opaque host object, e.g. a framework's [res] *)

(** [Boolean(v)]: the values that count as false in a condition. *)
Definition truthy (v : JSValue) : bool :=
  match v with
  | JUndefined | JNull => false
  | JBool b => b
  | JNum n => negb (Z.eqb n 0)
  | JStr s => negb (String.eqb s "")
  | JArr _ | JObj _ | JHost _ => true
  end.

(** [String(n)] for an integer [n]. *)
Definition numToString (n : Z) : string := NilZero.string_of_int (Z.to_int n).

(** What a [throw] carries. *)
Inductive Exn : Type :=
| Error (message : string)
| TypeError (message : string)
| Thrown (v : JSValue).

(** ** Objects as ordered maps *)

(** The number a property name stands for when it is an array index, a
    canonical decimal numeral up to 2^32 - 2.  Such names are enumerated
    first, in ascending order. *)
Definition arrayIndex (k : string) : option Z :=
  match NilZero.int_of_string k with
  | Some i =>
      let n := Z.of_int i in
      if (0 <=? n)%Z && (n <=? 4294967294)%Z && String.eqb (numToString n) k
      then Some n
      else None
  | None => None
  end.

Module JSObject.

Definition t (A : Type) : Type := list (string * A).

(** [o[k]]; [None] stands for [undefined]. *)
Fixpoint get {A} (o : t A) (k : string) : option A :=
  match o with
  | [] => None
  | (k', v) :: o' => if String.eqb k' k then Some v else get o' k
  end.

(** [k in o], for own properties. *)
Definition has {A} (o : t A) (k : string) : bool :=
  existsb (fun e => String.eqb (fst e) k) o.

(** Assignment to an existing property: it keeps its place. *)
Fixpoint replace {A} (o : t A) (k : string) (v : A) : t A :=
  match o with
  | [] => []
  | (k', v') :: o' =>
      if String.eqb k' k then (k, v) :: o' else (k', v') :: replace o' k v
  end.

(** Creation of a property: an array index goes before the first name
    that is no array index or is a greater one, any other name goes
    last. *)
Fixpoint insert {A} (o : t A) (k : string) (v : A) : t A :=
  match o with
  | [] => [(k, v)]
  | (k', v') :: o' =>
      match arrayIndex k, arrayIndex k' with
      | Some n, Some n' =>
          if (n' <? n)%Z then (k', v') :: insert o' k v else (k, v) :: o
      | Some _, None => (k, v) :: o
      | None, _ => (k', v') :: insert o' k v
      end
  end.

(** [o[k] = v].  (Under the name [__proto__] the assignment replaces the
    prototype of the object; the value is recorded here under that name,
    so that a later read under [__proto__] finds it, as in the code.
    What the object would then inherit from the new prototype is not
    modelled.) *)
Definition set {A} (o : t A) (k : string) (v : A) : t A :=
  if has o k then replace o k v else insert o k v.

(** The object that results from creating the properties of [decl] one
    after the other, as a literal or a parsed document does: its
    enumeration order, from the order of declaration. *)
Definition declared {A} (decl : list (string * A)) : t A :=
  fold_left (fun o e => set o (fst e) (snd e)) decl [].

(** [Object.keys(o)] *)
Definition keys {A} (o : t A) : list string := map fst o.

(** [o[Object.keys(o)[0]]], the first entry in enumeration order: with
    no key the index is [undefined], which is looked up as the property
    named "undefined". *)
Definition first {A} (o : t A) : option A :=
  match keys o with
  | k :: _ => get o k
  | [] => get o "undefined"
  end.

End JSObject.

(** [_.includes(xs, s)] on an array of strings. *)
Definition includes (xs : list string) (s : string) : bool :=
  existsb (String.eqb s) xs.

(** The names under which [Object.prototype] holds a function, and the
    names a plain object inherits: those, and the accessor [__proto__],
    which reads as [Object.prototype] itself. *)
Definition prototypeFunctions : list string :=
  ["constructor"; "__defineGetter__"; "__defineSetter__"; "hasOwnProperty";
   "__lookupGetter__"; "__lookupSetter__"; "isPrototypeOf";
   "propertyIsEnumerable"; "toString"; "valueOf"; "toLocaleString"].

Definition inheritedName (k : string) : bool :=
  includes prototypeFunctions k || String.eqb k "__proto__".

(** ** The data model *)

Definition Document : Type := JSValue.
Definition SchemaObject : Type := JSValue.

Inductive DocumentInput : Type :=
| DocObject (d : Document)
| DocPath (file : string).

Record ExampleObject : Type := { value : JSValue }.

Record MediaTypeObject : Type := {
  schema : option SchemaObject;
  example : JSValue;
  examples : option (JSObject.t ExampleObject)
}.

Record ResponseObject : Type := {
  description : string;
  content : option (JSObject.t MediaTypeObject)
}.

(** Modelled from the spec: the declarations [Request], [ParsedRequest]
    and [Operation] of [router.ts] and [ValidationResult] of
    [validation.ts], which this file only passes around, apart from the
    fields [operationId], [path], [responses] and [errors] that it reads. *)
Record Request : Type := {
  req_method : string;
  req_path : string;
  req_headers : JSObject.t string;
  req_query : JSValue;
  req_body : JSValue
}.

Record ParsedRequest : Type := {
  pr_method : string;
  pr_path : string;
  pr_params : JSObject.t JSValue;
  pr_query : JSObject.t JSValue;
  pr_headers : JSObject.t string;
  pr_cookies : JSObject.t string;
  pr_requestBody : JSValue
}.

Record Operation : Type := {
  operationId : option string;
  path : string;
  method : string;
  parameters : JSValue;
  requestBody : JSValue;
  responses : option (JSObject.t ResponseObject)
}.

Record ValidationResult : Type := {
  valid : bool;
  errors : option (list JSValue)
}.

(** [Context] without its [api] field, which is always the instance
    handling the request. *)
Record Context : Type := {
  request : option ParsedRequest;
  operation : option Operation;
  validation : option ValidationResult;
  response : option JSValue
}.

(** A handler is either called with the context in front of the caller's
    arguments or with the caller's arguments alone; it returns or throws
    (a rejected promise counts as a throw, since every call is awaited). *)
Definition Handler : Type := option Context -> list JSValue -> Exn + JSValue.
Definition BoolPredicate : Type := Context -> list JSValue -> Exn + bool.

(** What may sit in the [handlers] object: a function, or anything else. *)
Inductive HandlerSlot : Type :=
| HFun (h : Handler)
| HVal (v : JSValue).

Inductive ValidateOpt : Type :=
| ValidateBool (b : bool)
| ValidatePredicate (p : BoolPredicate).

Record OpenAPIRouter : Type := {
  getOperation : string -> option Operation;
  matchOperation : Request -> option Operation;
  parseRequest : Request -> option string -> ParsedRequest
}.

Record OpenAPIValidator : Type := {
  validateRequest : Request -> Operation -> ValidationResult
}.

Record OpenAPIBackend : Type := {
  document : option Document;
  inputDocument : DocumentInput;
  definition : option Document;
  apiRoot : string;
  initalized : bool;
  strict : bool;
  validate : ValidateOpt;
  withContext : bool;
  ajvOpts : JSValue;
  handlers : JSObject.t HandlerSlot;
  router : option OpenAPIRouter;
  validator : option OpenAPIValidator
}.

Definition allowedHandlers : list string :=
  ["notFound"; "notImplemented"; "validationFail"; "postResponseHandler"].

(** ** Events of a run *)

Inductive Role : Type :=
| NotFound | ValidationFail | NotImplemented | RouteHandler | PostResponse.

Inductive Event : Type :=
| ConsoleWarn (what : Exn + string)
| Validate (req : Request) (op : Operation)
| Call (role : Role) (h : Handler) (context : Context)
       (passContext : bool) (handlerArgs : list JSValue).

Record World : Type := {
  this : OpenAPIBackend;
  console : list Event
}.

(** ** The monad of methods *)

Definition M (A : Type) : Type := World -> (Exn + A) * World.

Definition ret {A} (a : A) : M A := fun w => (inr a, w).

Definition bind {A B} (m : M A) (f : A -> M B) : M B :=
  fun w =>
    match m w with
    | (inr a, w') => f a w'
    | (inl e, w') => (inl e, w')
    end.

Definition throw {A} (e : Exn) : M A := fun w => (inl e, w).

Definition tryCatch {A} (m : M A) (handler : Exn -> M A) : M A :=
  fun w =>
    match m w with
    | (inr a, w') => (inr a, w')
    | (inl e, w') => handler e w'
    end.

Definition getThis : M OpenAPIBackend := fun w => (inr (this w), w).

Definition setThis (f : OpenAPIBackend -> OpenAPIBackend) : M unit :=
  fun w => (inr tt, {| this := f (this w); console := console w |}).

Definition emit (e : Event) : M unit :=
  fun w => (inr tt, {| this := this w; console := console w ++ [e] |}).

Definition lift {A} (r : Exn + A) : M A := fun w => (r, w).

Declare Scope js_scope.
Delimit Scope js_scope with js.
Notation "x <- m ;; k" := (bind m (fun x => k))
  (at level 100, m at next level, right associativity) : js_scope.
Notation "m ;; k" := (bind m (fun _ => k))
  (at level 100, right associativity) : js_scope.
Open Scope js_scope.

(** Field updates of the instance. *)
Definition with_handlers (hs : JSObject.t HandlerSlot) (b : OpenAPIBackend) :=
  {| document := document b; inputDocument := inputDocument b;
     definition := definition b; apiRoot := apiRoot b;
     initalized := initalized b; strict := strict b; validate := validate b;
     withContext := withContext b; ajvOpts := ajvOpts b; handlers := hs;
     router := router b; validator := validator b |}.

Definition with_document (d : option Document) (b : OpenAPIBackend) :=
  {| document := d; inputDocument := inputDocument b;
     definition := definition b; apiRoot := apiRoot b;
     initalized := initalized b; strict := strict b; validate := validate b;
     withContext := withContext b; ajvOpts := ajvOpts b;
     handlers := handlers b; router := router b; validator := validator b |}.

Definition with_definition (d : option Document) (b : OpenAPIBackend) :=
  {| document := document b; inputDocument := inputDocument b;
     definition := d; apiRoot := apiRoot b;
     initalized := initalized b; strict := strict b; validate := validate b;
     withContext := withContext b; ajvOpts := ajvOpts b;
     handlers := handlers b; router := router b; validator := validator b |}.

Definition with_router (r : option OpenAPIRouter) (b : OpenAPIBackend) :=
  {| document := document b; inputDocument := inputDocument b;
     definition := definition b; apiRoot := apiRoot b;
     initalized := initalized b; strict := strict b; validate := validate b;
     withContext := withContext b; ajvOpts := ajvOpts b;
     handlers := handlers b; router := r; validator := validator b |}.

Definition with_validator (v : option OpenAPIValidator) (b : OpenAPIBackend) :=
  {| document := document b; inputDocument := inputDocument b;
     definition := definition b; apiRoot := apiRoot b;
     initalized := initalized b; strict := strict b; validate := validate b;
     withContext := withContext b; ajvOpts := ajvOpts b;
     handlers := handlers b; router := router b; validator := v |}.

Definition with_initalized (i : bool) (b : OpenAPIBackend) :=
  {| document := document b; inputDocument := inputDocument b;
     definition := definition b; apiRoot := apiRoot b;
     initalized := i; strict := strict b; validate := validate b;
     withContext := withContext b; ajvOpts := ajvOpts b;
     handlers := handlers b; router := router b; validator := validator b |}.

(** [this.router.m(...)]: reading a member of [undefined] throws. *)
Definition theRouter : M OpenAPIRouter :=
  b <- getThis ;;
  match router b with
  | Some r => ret r
  | None => throw (TypeError "Cannot read properties of undefined (router)")
  end.

Definition theValidator : M OpenAPIValidator :=
  b <- getThis ;;
  match validator b with
  | Some v => ret v
  | None => throw (TypeError "Cannot read properties of undefined (validator)")
  end.

(** ** Collaborators *)

Record Externals : Type := {
  SwaggerParser_parse : DocumentInput -> Exn + Document;
  SwaggerParser_dereference : Document -> Exn + Document;
  validateOpenAPI : option Document -> bool * list JSValue;
  JSON_stringify : list JSValue -> string;
  newOpenAPIRouter : option Document -> string -> OpenAPIRouter;
  newOpenAPIValidator :
    option Document -> JSValue -> OpenAPIRouter -> OpenAPIValidator;
  findDefaultStatusCodeMatch :
    JSObject.t ResponseObject -> Z * option ResponseObject;
  mock_json_schema : SchemaObject -> JSValue;
  (* what the function that [Object.prototype] holds under a name
     answers when it is called the way a handler is, without receiver *)
  Object_prototype : string -> Handler
}.

(** ** Construction *)

Record Options : Type := {
  opts_definition : DocumentInput;
  opts_apiRoot : option string;
  opts_strict : option bool;
  opts_validate : option ValidateOpt;
  opts_withContext : option bool;
  opts_ajvOpts : option JSValue;
  opts_handlers : option (JSObject.t HandlerSlot)
}.

Definition orDefault {A} (o : option A) (d : A) : A :=
  match o with Some a => a | None => d end.

Definition constructor (opts : Options) : OpenAPIBackend :=
  {| document := None;
     inputDocument := opts_definition opts;
     definition := None;
     apiRoot := orDefault (opts_apiRoot opts) "/";
     initalized := false;
     strict := orDefault (opts_strict opts) false;
     validate := orDefault (opts_validate opts) (ValidateBool true);
     withContext := orDefault (opts_withContext opts) true;
     ajvOpts := orDefault (opts_ajvOpts opts) (JObj []);
     handlers := orDefault (opts_handlers opts) [];
     router := None;
     validator := None |}.

(** ** Registration *)

Definition slotTruthy (s : option HandlerSlot) : bool :=
  match s with
  | Some (HFun _) => true
  | Some (HVal v) => truthy v
  | None => false
  end.

Definition isSome {A} (o : option A) : bool :=
  match o with Some _ => true | None => false end.

Definition registerHandler (opId : string) (handler : HandlerSlot) : M unit :=
  match handler with
  | HVal _ => throw (Error "Handler should be a function")
  | HFun _ =>
      b <- getThis ;;
      (if initalized b then
         r <- theRouter ;;
         let operation := getOperation r opId in
         if negb (isSome operation) && negb (includes allowedHandlers opId)
         then
           let err := "Unknown operationId " ++ opId in
           if strict b
           then throw (Error (err ++ ". Refusing to register handler"))
           else emit (ConsoleWarn (inr err))
         else ret tt
       else ret tt) ;;
      setThis (fun b => with_handlers (JSObject.set (handlers b) opId handler) b)
  end.

(** [register(handlers)]: the bulk form, entries in enumeration order,
    those with a false value skipped. *)
Fixpoint registerAll (hs : JSObject.t HandlerSlot) : M unit :=
  match hs with
  | [] => ret tt
  | (opId, h) :: hs' =>
      (if slotTruthy (Some h) then registerHandler opId h else ret tt) ;;
      registerAll hs'
  end.

Inductive RegisterArgs : Type :=
| RegisterOne (opId : string) (handler : HandlerSlot)
| RegisterMany (hs : JSObject.t HandlerSlot).

Definition register (args : RegisterArgs) : M unit :=
  match args with
  | RegisterOne opId handler => registerHandler opId handler
  | RegisterMany hs => registerAll hs
  end.

(** ** Mock options and results *)

Record MockOpts : Type := {
  code : option Z;
  mediaType : option string;
  exampleName : option string      (* [opts.example] *)
}.

Record MockResult : Type := {
  status : Z;
  mock : JSValue
}.

(** Truthiness of an optional string. *)
Definition strTruthy (s : option string) : bool :=
  match s with Some s => truthy (JStr s) | None => false end.

(** [a || b] on two handler lookups. *)
Definition orElse (a b : option HandlerSlot) : option HandlerSlot :=
  if slotTruthy a then a else b.

(** The matched operation when it can be dispatched:
    [context.operation && context.operation.operationId]. *)
Definition routed (o : option Operation) : option (Operation * string) :=
  match o with
  | Some op =>
      match operationId op with
      | Some id => if truthy (JStr id) then Some (op, id) else None
      | None => None
      end
  | None => None
  end.

Definition with_request (r : option ParsedRequest) (c : Context) : Context :=
  {| request := r; operation := operation c;
     validation := validation c; response := response c |}.

Definition with_operation (o : option Operation) (c : Context) : Context :=
  {| request := request c; operation := o;
     validation := validation c; response := response c |}.

Definition with_validation (v : option ValidationResult) (c : Context) : Context :=
  {| request := request c; operation := operation c;
     validation := v; response := response c |}.

Definition with_response (v : option JSValue) (c : Context) : Context :=
  {| request := request c; operation := operation c;
     validation := validation c; response := v |}.

Definition newline : string := String (Ascii.ascii_of_nat 10) "".

(** [content[k]]: an own entry, or else a member inherited from
    [Object.prototype], which read as a media type entry has no schema,
    no example and no examples. *)
Definition mediaAt (content : JSObject.t MediaTypeObject) (k : string)
  : option MediaTypeObject :=
  match JSObject.get content k with
  | Some m => Some m
  | None =>
      if inheritedName k
      then Some {| schema := None; example := JUndefined; examples := None |}
      else None
  end.

Section Backend.

Variable ext : Externals.

(** ** Initialisation *)

Definition validateDefinition : M (option Document) :=
  b <- getThis ;;
  let '(valid, errors) := validateOpenAPI ext (document b) in
  if negb valid then
    throw (Error ("Document is not valid OpenAPI. "
                    ++ numToString (Z.of_nat (length errors))
                    ++ " validation errors:" ++ newline
                    ++ JSON_stringify ext errors))
  else ret (document b).

Definition init : M unit :=
  tryCatch
    (b <- getThis ;;
     d <- lift (SwaggerParser_parse ext (inputDocument b)) ;;
     setThis (with_document (Some d)) ;;
     validateDefinition ;;
     d' <- lift (SwaggerParser_dereference ext d) ;;
     setThis (with_definition (Some d')))
    (fun err =>
       b <- getThis ;;
       if strict b then throw err else emit (ConsoleWarn (inl err))) ;;
  b <- getThis ;;
  let r := newOpenAPIRouter ext (definition b) (apiRoot b) in
  setThis (with_router (Some r)) ;;
  setThis (with_validator
             (Some (newOpenAPIValidator ext (definition b) (ajvOpts b) r))) ;;
  setThis (with_initalized true) ;;
  b <- getThis ;;
  registerAll (handlers b).

(** ** Request handling *)

(** [this.handlers[k]] for a name [k] that the code is given: an own
    entry, or else what the table inherits from [Object.prototype], a
    function under eleven names and [Object.prototype] itself, an object
    that is no function, under [__proto__].  (The names that the code
    spells out, such as 404 or validationFail, name no inherited member
    and are read with [JSObject.get].) *)
Definition handlerAt (hs : JSObject.t HandlerSlot) (k : string)
  : option HandlerSlot :=
  match JSObject.get hs k with
  | Some s => Some s
  | None =>
      if includes prototypeFunctions k
      then Some (HFun (Object_prototype ext k))
      else if String.eqb k "__proto__" then Some (HVal (JObj []))
      else None
  end.

(** [this.withContext ? h(context, ...handlerArgs) : h(...handlerArgs)] *)
Definition invoke (role : Role) (slot : option HandlerSlot)
           (context : Context) (handlerArgs : list JSValue) : M JSValue :=
  b <- getThis ;;
  match slot with
  | Some (HFun h) =>
      emit (Call role h context (withContext b) handlerArgs) ;;
      lift (if withContext b
            then h (Some context) handlerArgs
            else h None handlerArgs)
  | _ => throw (TypeError "handler is not a function")
  end.

Definition emptyContext : Context :=
  {| request := None; operation := None;
     validation := None; response := None |}.

(** Lines 198-203: no operation, or one without an operationId. *)
Definition notFound (context : Context) (handlerArgs : list JSValue)
  : M (Context * JSValue) :=
  b <- getThis ;;
  let notFoundHandler :=
    orElse (JSObject.get (handlers b) "404")
           (JSObject.get (handlers b) "notFound") in
  if negb (slotTruthy notFoundHandler)
  then throw (Error "404-notFound: no route matches request")
  else
    v <- invoke NotFound notFoundHandler context handlerArgs ;;
    ret (context, v).

(** Lines 211-212: whether this request is to be validated. *)
Definition validateGate (context : Context) (handlerArgs : list JSValue)
  : M bool :=
  b <- getThis ;;
  match validate b with
  | ValidatePredicate p => lift (p context handlerArgs)
  | ValidateBool v => ret v
  end.

(** Lines 215-227: the result is [Some v] when the function returns [v]
    from the validation-fail handler, [None] when it goes on. *)
Definition validateStage (toValidate : bool) (req : Request) (op : Operation)
           (context : Context) (handlerArgs : list JSValue)
  : M (Context * option JSValue) :=
  b <- getThis ;;
  let validationFailHandler := JSObject.get (handlers b) "validationFail" in
  if toValidate then
    vd <- theValidator ;;
    emit (Validate req op) ;;
    let res := validateRequest vd req op in
    let context := with_validation (Some res) context in
    if isSome (errors res) && slotTruthy validationFailHandler
    then
      v <- invoke ValidationFail validationFailHandler context handlerArgs ;;
      ret (context, Some v)
    else ret (context, None)
  else ret (context, None).

(** Lines 229-243: the operation's handler, or the not-implemented one. *)
Definition dispatch (opId : string) (context : Context)
           (handlerArgs : list JSValue) : M (Context * JSValue) :=
  b <- getThis ;;
  let routeHandler := handlerAt (handlers b) opId in
  if negb (slotTruthy routeHandler) then
    let notImplementedHandler :=
      orElse (JSObject.get (handlers b) "501")
             (JSObject.get (handlers b) "notImplemented") in
    if negb (slotTruthy notImplementedHandler)
    then throw (Error ("501-notImplemented: " ++ opId
                         ++ " no handler registered"))
    else
      v <- invoke NotImplemented notImplementedHandler context handlerArgs ;;
      ret (context, v)
  else
    v <- invoke RouteHandler routeHandler context handlerArgs ;;
    ret (context, v).

(** Lines 191-244: the inner asynchronous function; it yields the
    context as it has become, and the response. *)
Definition pipeline (req : Request) (handlerArgs : list JSValue)
           (context : Context) : M (Context * JSValue) :=
  r <- theRouter ;;
  let context := with_request (Some (parseRequest r req None)) context in
  r <- theRouter ;;
  let context := with_operation (matchOperation r req) context in
  match routed (operation context) with
  | None => notFound context handlerArgs
  | Some (op, opId) =>
      r <- theRouter ;;
      let context :=
        with_request (Some (parseRequest r req (Some (path op)))) context in
      toValidate <- validateGate context handlerArgs ;;
      cv <- validateStage toValidate req op context handlerArgs ;;
      match cv with
      | (context, Some v) => ret (context, v)
      | (context, None) => dispatch opId context handlerArgs
      end
  end.

(** Lines 246-255: the post-response hook. *)
Definition postResponse (context : Context) (response : JSValue)
           (handlerArgs : list JSValue) : M JSValue :=
  b <- getThis ;;
  let postResponseHandler := JSObject.get (handlers b) "postResponseHandler" in
  if slotTruthy postResponseHandler then
    let context := with_response (Some response) context in
    invoke PostResponse postResponseHandler context handlerArgs
  else ret response.

(** Lines 182-185: initialise on first use. *)
Definition autoInit : M unit :=
  b <- getThis ;;
  if negb (initalized b) then init else ret tt.

Definition handleRequest (req : Request) (handlerArgs : list JSValue)
  : M JSValue :=
  autoInit ;;
  let context := emptyContext in
  cr <- pipeline req handlerArgs context ;;
  let '(context, response) := cr in
  postResponse context response handlerArgs.

(** ** Mock selection *)

(** Lines 362-371: the response and its status.  (The name read is a
    numeral, which names no inherited member.) *)
Definition resolveStatus (responses : JSObject.t ResponseObject)
           (opts : MockOpts) : Z * option ResponseObject :=
  match code opts with
  | Some c =>
      if truthy (JNum c) then
        match JSObject.get responses (numToString c) with
        | Some res => (c, Some res)
        | None => findDefaultStatusCodeMatch ext responses
        end
      else findDefaultStatusCodeMatch ext responses
  | None => findDefaultStatusCodeMatch ext responses
  end.

(** Lines 381-382: the media type entry. *)
Definition resolveMediaResponse (content : JSObject.t MediaTypeObject)
           (opts : MockOpts) : option MediaTypeObject :=
  let mediaType :=
    match mediaType opts with
    | Some m => if truthy (JStr m) then m else "application/json"
    | None => "application/json"
    end in
  match mediaAt content mediaType with
  | Some m => Some m
  | None => JSObject.first content
  end.

(** Lines 386-413: the body, from examples or from the schema.  (A member
    that [examples] inherits under the requested name has no [value], so
    that it is passed over like a missing one; [JSObject.get] gives the
    same outcome.) *)
Definition selectMock (mediaResponse : MediaTypeObject) (opts : MockOpts)
  : Exn + JSValue :=
  let defaultMock := JObj [] in
  let requested :=
    match exampleName opts, examples mediaResponse with
    | Some name, Some exs =>
        if truthy (JStr name) then
          match JSObject.get exs name with
          | Some exampleObject =>
              if truthy (value exampleObject)
              then Some (value exampleObject)
              else None
          | None => None
          end
        else None
    | _, _ => None
    end in
  match requested with
  | Some v => inr v
  | None =>
      if truthy (example mediaResponse) then inr (example mediaResponse)
      else
        match examples mediaResponse with
        | Some exs =>
            match JSObject.first exs with
            | Some exampleObject => inr (value exampleObject)
            | None =>
                inl (TypeError
                       "Cannot read properties of undefined (reading 'value')")
            end
        | None =>
            match schema mediaResponse with
            | Some sch => inr (mock_json_schema ext sch)
            | None => inr defaultMock
            end
        end
  end.

Definition mockResponseForOperation (opId : string) (opts : MockOpts)
  : M MockResult :=
  let status := 200%Z in
  let defaultMock := JObj [] in
  r <- theRouter ;;
  match getOperation r opId with
  | None => ret {| status := status; mock := defaultMock |}
  | Some operation =>
      match responses operation with
      | None => ret {| status := status; mock := defaultMock |}
      | Some responses =>
          let '(status, response) := resolveStatus responses opts in
          match match response with
                | Some res => content res
                | None => None
                end with
          | None => ret {| status := status; mock := defaultMock |}
          | Some content =>
              match resolveMediaResponse content opts with
              | None => ret {| status := status; mock := defaultMock |}
              | Some mediaResponse =>
                  v <- lift (selectMock mediaResponse opts) ;;
                  ret {| status := status; mock := v |}
              end
          end
      end
  end.

End Backend.

(** ** A small contract used for examples

    A router over a fixed operation table that matches literal paths, a
    validator that objects to a request whose query is the string "bad",
    and stand-ins for the other collaborators. *)

Module Petstore.

Definition plainText : MediaTypeObject :=
  {| schema := None; example := JStr "plain"; examples := None |}.

Definition jsonBody : MediaTypeObject :=
  {| schema := None; example := JStr "json"; examples := None |}.

Definition petSchema : SchemaObject :=
  JObj [("type", JStr "object");
        ("required", JArr [JStr "name"]);
        ("properties", JObj [("name", JObj [("type", JStr "string")])])].

Definition namedExamples : MediaTypeObject :=
  {| schema := Some petSchema;
     example := JUndefined;
     examples := Some [("cat", {| value := JObj [("name", JStr "Garfield")] |});
                       ("dog", {| value := JObj [("name", JStr "Odie")] |})] |}.

Definition schemaOnly : MediaTypeObject :=
  {| schema := Some petSchema; example := JUndefined; examples := None |}.

Definition noExamplesListed : MediaTypeObject :=
  {| schema := Some petSchema; example := JUndefined; examples := Some [] |}.

Definition getPets : Operation :=
  {| operationId := Some "getPets"; path := "/pets"; method := "get";
     parameters := JArr []; requestBody := JUndefined;
     responses :=
       Some [("200", {| description := "ok";
                        content := Some [("text/plain", plainText);
                                         ("application/json", jsonBody)] |});
             ("404", {| description := "no pets"; content := None |})] |}.

Definition getPetById : Operation :=
  {| operationId := Some "getPetById"; path := "/pets/1"; method := "get";
     parameters := JArr []; requestBody := JUndefined;
     responses :=
       Some [("200", {| description := "ok";
                        content := Some [("application/json",
                                          namedExamples)] |})] |}.

Definition createPet : Operation :=
  {| operationId := Some "createPet"; path := "/pets"; method := "post";
     parameters := JArr []; requestBody := JUndefined;
     responses :=
       Some [("201", {| description := "created";
                        content := Some [("application/json",
                                          schemaOnly)] |})] |}.

Definition listOwners : Operation :=
  {| operationId := Some "listOwners"; path := "/owners"; method := "get";
     parameters := JArr []; requestBody := JUndefined;
     responses :=
       Some [("200", {| description := "ok";
                        content := Some [("application/json",
                                          noExamplesListed)] |})] |}.

(** An operation declared without operationId. *)
Definition anonymous : Operation :=
  {| operationId := None; path := "/health"; method := "get";
     parameters := JArr []; requestBody := JUndefined;
     responses := None |}.

(** An operation whose operationId is the name of a member that every
    object inherits. *)
Definition describe : Operation :=
  {| operationId := Some "toString"; path := "/describe"; method := "get";
     parameters := JArr []; requestBody := JUndefined;
     responses := None |}.

Definition table : list Operation :=
  [getPets; getPetById; createPet; listOwners; anonymous; describe].

Definition petRouter : OpenAPIRouter :=
  {| getOperation := fun id =>
       find (fun op => match operationId op with
                       | Some i => String.eqb i id
                       | None => false
                       end) table;
     matchOperation := fun req =>
       find (fun op => String.eqb (method op) (req_method req)
                       && String.eqb (path op) (req_path req)) table;
     parseRequest := fun req _ =>
       {| pr_method := req_method req; pr_path := req_path req;
          pr_params := []; pr_query := []; pr_headers := req_headers req;
          pr_cookies := []; pr_requestBody := req_body req |} |}.

Definition petValidator : OpenAPIValidator :=
  {| validateRequest := fun req _ =>
       match req_query req with
       | JStr "bad" =>
           {| valid := false; errors := Some [JStr "query is bad"] |}
       | _ => {| valid := true; errors := None |}
       end |}.

Fixpoint firstOf (rs : JSObject.t ResponseObject) (codes : list Z)
  : option (Z * ResponseObject) :=
  match codes with
  | [] => None
  | c :: cs =>
      match JSObject.get rs (numToString c) with
      | Some res => Some (c, res)
      | None => firstOf rs cs
      end
  end.

(** Modelled from the spec: [findDefaultStatusCodeMatch] of [utils.ts],
    after section 4.6 step 1: the lowest declared 2xx status, else the
    [default] entry, else the first declared status.  The spec does not
    give the status reported with the [default] entry; 200 is used. *)
Definition defaultStatusCodeMatch (rs : JSObject.t ResponseObject)
  : Z * option ResponseObject :=
  match firstOf rs (map (fun n => 200 + Z.of_nat n)%Z (seq 0 100)) with
  | Some (c, res) => (c, Some res)
  | None =>
      match JSObject.get rs "default" with
      | Some res => (200%Z, Some res)
      | None =>
          match rs with
          | (k, res) :: _ =>
              (match NilZero.int_of_string k with
               | Some i => Z.of_int i
               | None => 0%Z
               end, Some res)
          | [] => (0%Z, None)
          end
      end
  end.

Definition ext : Externals :=
  {| SwaggerParser_parse := fun input =>
       match input with
       | DocObject d => inr d
       | DocPath f => inl (Error ("Error opening file " ++ f))
       end;
     SwaggerParser_dereference := fun d => inr d;
     validateOpenAPI := fun _ => (true, []);
     JSON_stringify := fun _ => "[]";
     newOpenAPIRouter := fun _ _ => petRouter;
     newOpenAPIValidator := fun _ _ _ => petValidator;
     findDefaultStatusCodeMatch := defaultStatusCodeMatch;
     mock_json_schema := fun _ => JObj [("name", JStr "string")];
     Object_prototype := fun name _ _ =>
       if String.eqb name "toString" then inr (JStr "[object Undefined]")
       else inl (TypeError "Cannot convert undefined or null to object") |}.

Definition answer (s : string) : Handler := fun _ _ => inr (JStr s).

Definition options (isStrict : bool) (v : ValidateOpt)
           (hs : JSObject.t HandlerSlot) : Options :=
  {| opts_definition := DocObject (JObj []);
     opts_apiRoot := None;
     opts_strict := Some isStrict;
     opts_validate := Some v;
     opts_withContext := None;
     opts_ajvOpts := None;
     opts_handlers := Some hs |}.

(** A fresh instance, and the instance after [init]. *)
Definition fresh (isStrict : bool) (v : ValidateOpt)
           (hs : JSObject.t HandlerSlot) : World :=
  {| this := constructor (options isStrict v hs); console := [] |}.

Definition started (isStrict : bool) (v : ValidateOpt)
           (hs : JSObject.t HandlerSlot) : World :=
  snd (init ext (fresh isStrict v hs)).

Definition get (p : string) (q : JSValue) : Request :=
  {| req_method := "get"; req_path := p; req_headers := [];
     req_query := q; req_body := JUndefined |}.

Definition noOpts : MockOpts :=
  {| code := None; mediaType := None; exampleName := None |}.

End Petstore.

(** * Vocabulary of the statements *)


(** Registration touches nothing but the handler table and the console. *)
Definition sameButHandlers (b b' : OpenAPIBackend) : Prop :=
  initalized b' = initalized b /\ router b' = router b
  /\ validator b' = validator b /\ strict b' = strict b
  /\ validate b' = validate b /\ withContext b' = withContext b.

Definition emptyMock (st : Z) : MockResult :=
  {| status := st; mock := JObj [] |}.

(** What [mockResponseForOperation] answers once the status [st] and the
    media type entry [m] are settled. *)
Definition mockFrom (ext : Externals) (st : Z) (m : MediaTypeObject)
           (opts : MockOpts) : Exn + MockResult :=
  match selectMock ext m opts with
  | inl e => inl e
  | inr v => inr {| status := st; mock := v |}
  end.

(** The call resolves to status [st] and to the media type entry [m]. *)
Definition resolvesTo (ext : Externals) (w : World) (opId : string)
           (opts : MockOpts) (st : Z) (m : MediaTypeObject) : Prop :=
  exists r op rs rr cont,
    router (this w) = Some r /\ getOperation r opId = Some op
    /\ responses op = Some rs
    /\ resolveStatus ext rs opts = (st, Some rr)
    /\ content rr = Some cont
    /\ resolveMediaResponse cont opts = Some m.

(** The resolution as the specification words it: the option if declared,
    otherwise application/json if declared, otherwise the first declared
    media type. *)
Definition spec_resolveMediaType (content : JSObject.t MediaTypeObject)
           (opts : MockOpts) : option MediaTypeObject :=
  match match mediaType opts with
        | Some m => JSObject.get content m
        | None => None
        end with
  | Some e => Some e
  | None =>
      match JSObject.get content "application/json" with
      | Some e => Some e
      | None => match content with
                | (_, e) :: _ => Some e
                | [] => None
                end
      end
  end.


(** The named example that the [example] option asks for, if declared. *)
Definition requestedExample (m : MediaTypeObject) (opts : MockOpts)
  : option ExampleObject :=
  match exampleName opts, examples m with
  | Some n, Some exs => JSObject.get exs n
  | _, _ => None
  end.


(** A state that an instance can be in when a request arrives: if it is
    marked initialised, it has its router and its validator. *)
Definition consistent (b : OpenAPIBackend) : Prop :=
  initalized b = true ->
  exists r vd, router b = Some r /\ validator b = Some vd.

(** The instance is ready to serve: initialisation, if it was due, has
    succeeded and left the state [w1], with router [r] and validator [vd]. *)
Definition ready (ext : Externals) (w w1 : World)
           (r : OpenAPIRouter) (vd : OpenAPIValidator) : Prop :=
  autoInit ext w = (inr tt, w1)
  /\ router (this w1) = Some r /\ validator (this w1) = Some vd.

(** The context as the stages of [pipeline] see it. *)
Definition baseContext (r : OpenAPIRouter) (req : Request) : Context :=
  with_operation (matchOperation r req)
    (with_request (Some (parseRequest r req None)) emptyContext).

Definition routeContext (r : OpenAPIRouter) (req : Request) (op : Operation)
  : Context :=
  with_request (Some (parseRequest r req (Some (path op)))) (baseContext r req).

Definition validatedContext (r : OpenAPIRouter) (vd : OpenAPIValidator)
           (req : Request) (op : Operation) : Context :=
  with_validation (Some (validateRequest vd req op)) (routeContext r req op).

(** The value of the validate gate for a request. *)
Definition gateValue (b : OpenAPIBackend) (context : Context)
           (handlerArgs : list JSValue) : Exn + bool :=
  match validate b with
  | ValidatePredicate p => p context handlerArgs
  | ValidateBool v => inr v
  end.

(** What a handler answers under the calling convention of the instance. *)
Definition callResult (b : OpenAPIBackend) (h : Handler) (context : Context)
           (handlerArgs : list JSValue) : Exn + JSValue :=
  if withContext b then h (Some context) handlerArgs else h None handlerArgs.

(** The world with more events on its console. *)
Definition logged (w : World) (evs : list Event) : World :=
  {| this := this w; console := console w ++ evs |}.

(** What follows the validation stage when it lets the request through:
    handler resolution, then the post-response hook. *)
Definition afterValidation (ext : Externals) (opId : string)
           (context : Context) (handlerArgs : list JSValue) : M JSValue :=
  cr <- dispatch ext opId context handlerArgs ;;
  postResponse (fst cr) (snd cr) handlerArgs.

Definition isDispatchCall (e : Event) : bool :=
  match e with
  | Call PostResponse _ _ _ _ => false
  | Call _ _ _ _ _ => true
  | _ => false
  end.

Definition isPostCall (e : Event) : bool :=
  match e with
  | Call PostResponse _ _ _ _ => true
  | _ => false
  end.

Definition isValidate (e : Event) : bool :=
  match e with
  | Validate _ _ => true
  | _ => false
  end.

(** The handler invocations of a run other than the post-response hook. *)
Definition dispatchCalls (evs : list Event) : list Event :=
  filter isDispatchCall evs.

(** A handler's answer together with the context of the run. *)
Definition withCtx (c : Context) (x : Exn + JSValue) : Exn + (Context * JSValue) :=
  match x with
  | inl e => inl e
  | inr v => inr (c, v)
  end.

(** The validation stage lets the request through: the gate is off, or
    the validator has no errors to report, or no validation-fail handler
    is registered. *)
Definition letsThrough (b : OpenAPIBackend) (vd : OpenAPIValidator)
           (req : Request) (op : Operation) (g : bool) : Prop :=
  g = false
  \/ errors (validateRequest vd req op) = None
  \/ slotTruthy (JSObject.get (handlers b) "validationFail") = false.

(** What a content map inherits under the name of a member of
    [Object.prototype], read as a media type entry. *)
Definition blankMedia : MediaTypeObject :=
  {| schema := None; example := JUndefined; examples := None |}.

(** A declaration whose names are distinct and none of them an array
    index: its enumeration order is its order of declaration. *)
Definition plainNames {A} (decl : list (string * A)) : Prop :=
  NoDup (JSObject.keys decl)
  /\ forall k v, In (k, v) decl -> arrayIndex k = None.

(** The request is answered by the handler [h], called in the role
    [role] on the context [ctx] after the run has reached the state [w0]:
    when [h] throws, that is the outcome and the call is the last event;
    when [h] returns and no post-response hook is registered, the outcome
    is what [h] returns; when a hook is registered, it is called next,
    with the response in the context, and its answer is the outcome. *)
Definition answeredBy (b : OpenAPIBackend) (role : Role) (h : Handler)
           (ctx : Context) (args : list JSValue) (w0 : World)
           (result : (Exn + JSValue) * World) : Prop :=
  let call := Call role h ctx (withContext b) args in
  (forall e,
      callResult b h ctx args = inl e ->
      result = (inl e, logged w0 [call]))
  /\ (forall v,
         callResult b h ctx args = inr v ->
         slotTruthy (JSObject.get (handlers b) "postResponseHandler") = false ->
         result = (inr v, logged w0 [call]))
  /\ (forall v p,
         callResult b h ctx args = inr v ->
         JSObject.get (handlers b) "postResponseHandler" = Some (HFun p) ->
         result
         = (callResult b p (with_response (Some v) ctx) args,
            logged w0 [call;
                       Call PostResponse p (with_response (Some v) ctx)
                            (withContext b) args])).

(** The handlers that the events of a run show as dispatched to, the
    post-response hook apart, each with its role. *)
Definition targets (evs : list Event) : list (Role * Handler) :=
  flat_map (fun e => match e with
                     | Call PostResponse _ _ _ _ => []
                     | Call role h _ _ _ => [(role, h)]
                     | _ => []
                     end) evs.

(** The handler that handler resolution settles on for operationId [X],
    from the handler table alone. *)
Definition selection (ext : Externals) (hs : JSObject.t HandlerSlot)
           (X : string) : list (Role * Handler) :=
  let fallback :=
    match orElse (JSObject.get hs "501") (JSObject.get hs "notImplemented") with
    | Some (HFun n) => [(NotImplemented, n)]
    | _ => []
    end in
  match handlerAt ext hs X with
  | Some (HFun h) => [(RouteHandler, h)]
  | Some (HVal v) => if truthy v then [] else fallback
  | None => fallback
  end.

(** The instance once [init] is past its loading block: router and
    validator built on the definition it holds, and marked initialised. *)
Definition marked (ext : Externals) (b : OpenAPIBackend) : OpenAPIBackend :=
  let r := newOpenAPIRouter ext (definition b) (apiRoot b) in
  with_initalized true
    (with_validator
       (Some (newOpenAPIValidator ext (definition b) (ajvOpts b) r))
       (with_router (Some r) b)).

(** The error of [validateDefinition]. *)
Definition invalidDocument (ext : Externals) (errs : list JSValue) : Exn :=
  Error ("Document is not valid OpenAPI. "
           ++ numToString (Z.of_nat (List.length errs))
           ++ " validation errors:" ++ newline ++ JSON_stringify ext errs).


(** An operationId that registration on an initialised instance objects
    to: the router does not know it and it is not an allowed key. *)
Definition questioned (r : OpenAPIRouter) (k : string) : bool :=
  negb (isSome (getOperation r k)) && negb (includes allowedHandlers k).






(** Options with the [code], resp. the [example], option left out. *)
Definition withoutCode (opts : MockOpts) : MockOpts :=
  {| code := None; mediaType := mediaType opts;
     exampleName := exampleName opts |}.

Definition withoutExample (opts : MockOpts) : MockOpts :=
  {| code := code opts; mediaType := mediaType opts; exampleName := None |}.

Definition isWarning (e : Event) : bool :=
  match e with
  | ConsoleWarn _ => true
  | _ => false
  end.

(** The condition under which a bulk registration of [hs] on [b] meets
    no refusal for an unknown operationId: on an initialised instance the
    router is there and, in strict mode, no entry passed on is questioned. *)
Definition unopposed (b : OpenAPIBackend) (hs : JSObject.t HandlerSlot)
  : Prop :=
  initalized b = true ->
  exists r, router b = Some r
            /\ (strict b = true ->
                forall k s, In (k, s) hs -> slotTruthy (Some s) = true ->
                            questioned r k = false).

(** An instance whose document is a file that the parser of [Petstore]
    cannot open. *)
Definition unreadable (isStrict : bool) (hs : JSObject.t HandlerSlot) : World :=
  {| this := constructor
               {| opts_definition := DocPath "api.yml";
                  opts_apiRoot := None;
                  opts_strict := Some isStrict;
                  opts_validate := None;
                  opts_withContext := None;
                  opts_ajvOpts := None;
                  opts_handlers := Some hs |};
     console := [] |}.




(** * Properties *)

(** ** The monad *)

Lemma bind_inr A B (m : M A) (f : A -> M B) w a w' :
  m w = (inr a, w') -> bind m f w = f a w'.
Proof. intros H. unfold bind. now rewrite H. Qed.

Lemma bind_inl A B (m : M A) (f : A -> M B) w e w' :
  m w = (inl e, w') -> bind m f w = (inl e, w').
Proof. intros H. unfold bind. now rewrite H. Qed.

Lemma world_eta w : {| this := this w; console := console w |} = w.
Proof. now destruct w. Qed.

(** ** Objects *)

Lemma has_get A (o : JSObject.t A) k :
  JSObject.has o k = isSome (JSObject.get o k).
Proof.
  induction o as [|[k' v'] o IH]; [reflexivity|].
  unfold JSObject.has in *. cbn [existsb fst JSObject.get].
  destruct (String.eqb k' k); [reflexivity|exact IH].
Qed.

Lemma get_replace_same A (o : JSObject.t A) k v :
  JSObject.has o k = true -> JSObject.get (JSObject.replace o k v) k = Some v.
Proof.
  induction o as [|[k' v'] o IH]; [discriminate|].
  unfold JSObject.has in *. cbn [existsb fst JSObject.replace].
  destruct (String.eqb k' k) eqn:E; cbn [orb JSObject.get].
  - intros _. now rewrite String.eqb_refl.
  - rewrite E. exact IH.
Qed.

Lemma get_replace_other A (o : JSObject.t A) k k' v :
  k <> k' -> JSObject.get (JSObject.replace o k v) k' = JSObject.get o k'.
Proof.
  intros Hne. induction o as [|[k0 v0] o IH]; [reflexivity|].
  cbn [JSObject.replace]. destruct (String.eqb_spec k0 k) as [->|_];
    cbn [JSObject.get].
  - destruct (String.eqb_spec k k'); [contradiction|reflexivity].
  - now rewrite IH.
Qed.

Lemma get_insert_same A (o : JSObject.t A) k v :
  JSObject.has o k = false -> JSObject.get (JSObject.insert o k v) k = Some v.
Proof.
  induction o as [|[k' v'] o IH].
  - intros _. cbn [JSObject.insert JSObject.get]. now rewrite String.eqb_refl.
  - unfold JSObject.has in *. cbn [existsb fst JSObject.insert].
    destruct (String.eqb k' k) eqn:E; [discriminate|]. cbn [orb]. intros Hno.
    destruct (arrayIndex k) as [n|]; [destruct (arrayIndex k') as [n'|]|].
    + destruct (n' <? n)%Z; cbn [JSObject.get].
      * rewrite E. now apply IH.
      * now rewrite String.eqb_refl.
    + cbn [JSObject.get]. now rewrite String.eqb_refl.
    + cbn [JSObject.get]. rewrite E. now apply IH.
Qed.

Lemma get_insert_other A (o : JSObject.t A) k k' v :
  k <> k' -> JSObject.get (JSObject.insert o k v) k' = JSObject.get o k'.
Proof.
  intros Hne.
  assert (Hhead : forall o0 : JSObject.t A,
             JSObject.get ((k, v) :: o0) k' = JSObject.get o0 k').
  { intros o0. cbn [JSObject.get].
    destruct (String.eqb_spec k k'); [contradiction|reflexivity]. }
  induction o as [|[k0 v0] o IH]; cbn [JSObject.insert].
  - apply Hhead.
  - destruct (arrayIndex k) as [n|]; [destruct (arrayIndex k0) as [n0|]|].
    + destruct (n0 <? n)%Z; [|apply Hhead].
      cbn [JSObject.get]. now rewrite IH.
    + apply Hhead.
    + cbn [JSObject.get]. now rewrite IH.
Qed.

Lemma get_set_same A (o : JSObject.t A) k v :
  JSObject.get (JSObject.set o k v) k = Some v.
Proof.
  unfold JSObject.set. destruct (JSObject.has o k) eqn:H.
  - now apply get_replace_same.
  - now apply get_insert_same.
Qed.

Lemma get_set_other A (o : JSObject.t A) k k' v :
  k <> k' -> JSObject.get (JSObject.set o k v) k' = JSObject.get o k'.
Proof.
  intros Hne. unfold JSObject.set. destruct (JSObject.has o k).
  - now apply get_replace_other.
  - now apply get_insert_other.
Qed.

Lemma first_nonempty A (o : JSObject.t A) :
  o <> [] -> exists v, JSObject.first o = Some v.
Proof.
  destruct o as [|[k v] o]; [congruence|]. intros _. exists v.
  unfold JSObject.first. simpl. now rewrite String.eqb_refl.
Qed.

Lemma first_cons A k (v : A) o : JSObject.first ((k, v) :: o) = Some v.
Proof. unfold JSObject.first. simpl. now rewrite String.eqb_refl. Qed.

(** ** Registration *)



Lemma sameButHandlers_refl b : sameButHandlers b b.
Proof. repeat split. Qed.

Lemma sameButHandlers_trans b1 b2 b3 :
  sameButHandlers b1 b2 -> sameButHandlers b2 b3 -> sameButHandlers b1 b3.
Proof.
  unfold sameButHandlers. intros (?&?&?&?&?&?) (?&?&?&?&?&?).
  repeat split; congruence.
Qed.

Ltac run :=
  cbv [bind getThis setThis theRouter theValidator ret throw emit lift] in *;
  cbn [this console fst snd] in *.

Lemma registerHandler_frame opId h w out w' :
  registerHandler opId h w = (out, w') -> sameButHandlers (this w) (this w').
Proof.
  unfold registerHandler. destruct h as [h|v]; run.
  - destruct (initalized (this w)).
    + destruct (router (this w)) as [r|].
      * destruct (negb (isSome (getOperation r opId))
                  && negb (includes allowedHandlers opId)).
        -- destruct (strict (this w)); intros [= <- <-];
             repeat split.
        -- intros [= <- <-]; repeat split.
      * intros [= <- <-]; repeat split.
    + intros [= <- <-]; repeat split.
  - intros [= <- <-]; repeat split.
Qed.

Lemma registerAll_frame hs w out w' :
  registerAll hs w = (out, w') -> sameButHandlers (this w) (this w').
Proof.
  revert w. induction hs as [|[k h] hs IH]; intros w; cbn [registerAll].
  - unfold ret. intros [= <- <-]. apply sameButHandlers_refl.
  - unfold bind at 1.
    destruct (slotTruthy (Some h)).
    + destruct (registerHandler k h w) as [[e|u] w1] eqn:E.
      * intros [= <- <-]. eapply registerHandler_frame; eauto.
      * intros H. eapply sameButHandlers_trans.
        -- eapply registerHandler_frame; eauto.
        -- eapply IH; eauto.
    + unfold ret. intros H. eapply IH; eauto.
Qed.

(** Registering under a key of [allowedHandlers] is never questioned. *)
Lemma registerHandler_allowed opId h w r :
  initalized (this w) = true -> router (this w) = Some r ->
  includes allowedHandlers opId = true ->
  registerHandler opId (HFun h) w
  = (inr tt,
     {| this := with_handlers
                  (JSObject.set (handlers (this w)) opId (HFun h)) (this w);
        console := console w |}).
Proof.
  intros Hi Hr Ha. unfold registerHandler. run.
  rewrite Hi, Hr, Ha. now rewrite andb_false_r.
Qed.

(** An accepted registration is what later lookups find, and it leaves
    the other keys alone. *)
Lemma registerHandler_registers opId h w w' :
  registerHandler opId (HFun h) w = (inr tt, w') ->
  JSObject.get (handlers (this w')) opId = Some (HFun h)
  /\ (forall k, opId <> k ->
         JSObject.get (handlers (this w')) k
         = JSObject.get (handlers (this w)) k).
Proof.
  unfold registerHandler. run.
  assert (Hset :
            JSObject.get (JSObject.set (handlers (this w)) opId (HFun h)) opId
            = Some (HFun h)
            /\ (forall k, opId <> k ->
                   JSObject.get
                     (JSObject.set (handlers (this w)) opId (HFun h)) k
                   = JSObject.get (handlers (this w)) k)).
  { split; [apply get_set_same|]. intros k Hk. now apply get_set_other. }
  destruct (initalized (this w)).
  - destruct (router (this w)) as [r|]; [|discriminate].
    destruct (negb (isSome (getOperation r opId))
              && negb (includes allowedHandlers opId)).
    + destruct (strict (this w)); [discriminate|].
      intros [= <-]. exact Hset.
    + intros [= <-]. exact Hset.
  - intros [= <-]. exact Hset.
Qed.

(** C7, evaluated on the code: on an initialised instance whose contract
    declares no operation named 404 or 501, registering a handler under
    the key 404 or 501 is refused in strict mode and draws the
    unknown-operationId warning in lenient mode, although [dispatch] and
    [notFound] look up exactly these keys; a strict instance constructed
    with a handler under 404 does not even initialise; the four keys of
    [allowedHandlers] pass silently. *)
Theorem reserved_404_501_questioned :
  let strictW := Petstore.started true (ValidateBool true) [] in
  let lenientW := Petstore.started false (ValidateBool true) [] in
  let h := Petstore.answer "fallback" in
  initalized (this strictW) = true /\ initalized (this lenientW) = true
  /\ fst (registerHandler "404" (HFun h) strictW)
     = inl (Error "Unknown operationId 404. Refusing to register handler")
  /\ fst (registerHandler "501" (HFun h) strictW)
     = inl (Error "Unknown operationId 501. Refusing to register handler")
  /\ console (snd (registerHandler "404" (HFun h) lenientW))
     = [ConsoleWarn (inr "Unknown operationId 404")]
  /\ console (snd (registerHandler "501" (HFun h) lenientW))
     = [ConsoleWarn (inr "Unknown operationId 501")]
  /\ fst (init Petstore.ext
            (Petstore.fresh true (ValidateBool true) [("404", HFun h)]))
     = inl (Error "Unknown operationId 404. Refusing to register handler")
  /\ (forall k, In k allowedHandlers ->
        fst (registerHandler k (HFun h) strictW) = inr tt
        /\ console (snd (registerHandler k (HFun h) lenientW)) = []).
Proof.
  cbv zeta. repeat split; try reflexivity;
    simpl in H; intuition (subst; reflexivity).
Qed.




(** ** Mock selection *)

Ltac mock_steps :=
  unfold mockResponseForOperation;
  cbv [bind getThis theRouter ret throw lift];
  repeat match goal with
         | H : _ = _ |- _ => rewrite H
         end;
  cbv beta iota zeta.

Lemma mock_content ext w r opId opts op rs st rr cont :
  router (this w) = Some r -> getOperation r opId = Some op ->
  responses op = Some rs -> resolveStatus ext rs opts = (st, Some rr) ->
  content rr = Some cont ->
  mockResponseForOperation ext opId opts w
  = (match resolveMediaResponse cont opts with
     | Some m => mockFrom ext st m opts
     | None => inr (emptyMock st)
     end, w).
Proof.
  intros Hr Hop Hrs Hst Hc. mock_steps.
  destruct (resolveMediaResponse cont opts) as [m|]; [|reflexivity].
  unfold mockFrom. now destruct (selectMock ext m opts).
Qed.

Lemma mock_resolved ext w opId opts st m :
  resolvesTo ext w opId opts st m ->
  mockResponseForOperation ext opId opts w = (mockFrom ext st m opts, w).
Proof.
  intros (r & op & rs & rr & cont & Hr & Hop & Hrs & Hst & Hc & Hm).
  erewrite mock_content by eassumption. now rewrite Hm.
Qed.

(** When the [code] option names a declared response, that response and
    that status are the ones resolved. *)
Lemma resolveStatus_code ext rs opts c rr :
  code opts = Some c -> c <> 0%Z ->
  JSObject.get rs (numToString c) = Some rr ->
  resolveStatus ext rs opts = (c, Some rr).
Proof.
  intros Hc Hz Hg. unfold resolveStatus. rewrite Hc. cbn [truthy].
  destruct (Z.eqb_spec c 0); [contradiction|]. cbn [negb]. now rewrite Hg.
Qed.

Lemma selectMock_total ext m opts :
  examples m <> Some [] -> exists v, selectMock ext m opts = inr v.
Proof.
  intros Hne. unfold selectMock.
  destruct (match exampleName opts, examples m with
            | Some name, Some exs =>
                if truthy (JStr name) then
                  match JSObject.get exs name with
                  | Some exampleObject =>
                      if truthy (value exampleObject)
                      then Some (value exampleObject) else None
                  | None => None
                  end
                else None
            | _, _ => None
            end) as [v|]; [eauto|].
  destruct (truthy (example m)); [eauto|].
  destruct (examples m) as [exs|] eqn:Ex.
  - destruct (@first_nonempty _ exs) as [ex Hex];
      [intros ->; now apply Hne|].
    rewrite Hex. eauto.
  - destruct (schema m); eauto.
Qed.

Lemma insert_plain A (o : JSObject.t A) k v :
  arrayIndex k = None -> JSObject.insert o k v = (o ++ [(k, v)])%list.
Proof.
  intros Hk. induction o as [|[k' v'] o IH]; cbn [JSObject.insert app];
    [reflexivity|].
  rewrite Hk. now rewrite IH.
Qed.

Lemma has_keys A (o : JSObject.t A) k :
  ~ In k (JSObject.keys o) -> JSObject.has o k = false.
Proof.
  intros Hno. unfold JSObject.has, JSObject.keys in *.
  induction o as [|[k' v'] o IH]; [reflexivity|].
  cbn [existsb fst map] in *. destruct (String.eqb_spec k' k) as [->|_].
  - exfalso. apply Hno. now left.
  - apply IH. intros Hin. apply Hno. now right.
Qed.

(** The enumeration order of an object is its order of declaration when
    no name is an array index. *)
Lemma declared_plain A (decl : list (string * A)) :
  plainNames decl -> JSObject.declared decl = decl.
Proof.
  unfold JSObject.declared.
  assert (Hgen : forall (acc : JSObject.t A),
             NoDup (JSObject.keys (acc ++ decl)%list) ->
             (forall k v, In (k, v) decl -> arrayIndex k = None) ->
             fold_left (fun o e => JSObject.set o (fst e) (snd e)) decl acc
             = (acc ++ decl)%list).
  { induction decl as [|[k v] decl IH]; intros acc Hnd Hplain.
    - cbn [fold_left]. now rewrite app_nil_r.
    - cbn [fold_left fst snd].
      assert (Hset : JSObject.set acc k v = (acc ++ [(k, v)])%list).
      { unfold JSObject.set. rewrite has_keys.
        - apply insert_plain. apply (Hplain k v). now left.
        - unfold JSObject.keys in *. rewrite map_app in Hnd.
          cbn [map fst] in Hnd. apply NoDup_remove_2 in Hnd.
          intros Hin. apply Hnd. apply in_or_app. now left. }
      rewrite Hset, IH.
      + now rewrite <- app_assoc.
      + now rewrite <- app_assoc.
      + intros k' v' Hin. apply (Hplain k' v'). now right. }
  intros [Hnd Hplain]. now apply (Hgen []).
Qed.

Lemma resolveMedia_nothing_declared opts :
  resolveMediaResponse [] opts = None
  \/ resolveMediaResponse [] opts = Some blankMedia.
Proof.
  unfold resolveMediaResponse, mediaAt, blankMedia. cbn [JSObject.get].
  match goal with
  | |- context [inheritedName ?k] => destruct (inheritedName k)
  end; auto.
Qed.

Lemma selectMock_blank ext opts : selectMock ext blankMedia opts = inr (JObj []).
Proof.
  unfold selectMock, blankMedia. cbn [examples example schema truthy].
  now destruct (exampleName opts).
Qed.

(** C4, as the code has it: on an initialised instance (one that has its
    router) [mockResponseForOperation] answers status 200 with the empty
    object when the operation is unknown or declares no responses; it
    answers the status already resolved, with the empty object, when no
    response is selected, when the selected response has no content,
    when the content declares no media type, and when the media type
    entry has neither inline example, named examples nor schema; and it
    returns a pair without throwing whenever the media type entry it
    resolves to does not carry an empty map of named examples.  The
    status resolved is the [code] option, with the response declared
    under it, when that option names a declared response; in every other
    case status and response are those of [findDefaultStatusCodeMatch]. *)
Theorem mock_fallbacks (ext : Externals) (w : World) (r : OpenAPIRouter)
        (opId : string) (opts : MockOpts) :
  router (this w) = Some r ->
  (getOperation r opId = None ->
   mockResponseForOperation ext opId opts w = (inr (emptyMock 200), w))
  /\ (forall op,
         getOperation r opId = Some op -> responses op = None ->
         mockResponseForOperation ext opId opts w = (inr (emptyMock 200), w))
  /\ (forall op rs st res,
         getOperation r opId = Some op -> responses op = Some rs ->
         resolveStatus ext rs opts = (st, res) ->
         match res with Some rr => content rr | None => None end = None ->
         mockResponseForOperation ext opId opts w = (inr (emptyMock st), w))
  /\ (forall op rs st rr cont,
         getOperation r opId = Some op -> responses op = Some rs ->
         resolveStatus ext rs opts = (st, Some rr) ->
         content rr = Some cont ->
         (cont = [] ->
          mockResponseForOperation ext opId opts w = (inr (emptyMock st), w))
         /\ (forall m,
                resolveMediaResponse cont opts = Some m ->
                example m = JUndefined -> examples m = None ->
                schema m = None ->
                mockResponseForOperation ext opId opts w
                = (inr (emptyMock st), w)))
  /\ ((forall st m, resolvesTo ext w opId opts st m -> examples m <> Some []) ->
      exists res, mockResponseForOperation ext opId opts w = (inr res, w))
  /\ (forall rs c rr,
         code opts = Some c -> c <> 0%Z ->
         JSObject.get rs (numToString c) = Some rr ->
         resolveStatus ext rs opts = (c, Some rr))
  /\ (forall rs,
         code opts = None
         \/ (exists c, code opts = Some c
                       /\ (c = 0%Z \/ JSObject.get rs (numToString c) = None)) ->
         resolveStatus ext rs opts = findDefaultStatusCodeMatch ext rs).
Proof.
  intros Hr. repeat apply conj.
  - intros Hop. now mock_steps.
  - intros op Hop Hrs. now mock_steps.
  - intros op rs st res Hop Hrs Hst Hc. mock_steps.
    destruct res as [rr|]; cbv beta iota zeta; now rewrite ?Hc.
  - intros op rs st rr cont Hop Hrs Hst Hc. split.
    + intros ->. erewrite mock_content by eassumption.
      destruct (resolveMedia_nothing_declared opts) as [H|H]; rewrite H;
        [reflexivity|].
      unfold mockFrom. now rewrite selectMock_blank.
    + intros m Hm Hex Hexs Hsch. erewrite mock_content by eassumption.
      rewrite Hm. unfold mockFrom, selectMock. rewrite Hex, Hexs, Hsch.
      cbn [truthy]. now destruct (exampleName opts).
  - intros Hne.
    destruct (getOperation r opId) as [op|] eqn:Hop;
      [|eexists; now mock_steps].
    destruct (responses op) as [rs|] eqn:Hrs; [|eexists; now mock_steps].
    destruct (resolveStatus ext rs opts) as [st res] eqn:Hst.
    destruct (match res with Some rr => content rr | None => None end)
      as [cont|] eqn:Hc.
    + destruct res as [rr|]; [|discriminate].
      erewrite mock_content by eassumption.
      destruct (resolveMediaResponse cont opts) as [m|] eqn:Hm;
        [|eexists; reflexivity].
      assert (Hm' : examples m <> Some []).
      { apply (Hne st). exists r, op, rs, rr, cont. auto 10. }
      destruct (@selectMock_total ext m opts Hm') as [v Hv].
      unfold mockFrom. rewrite Hv. eexists; reflexivity.
    + eexists. mock_steps. destruct res as [rr|]; cbv beta iota zeta;
        now rewrite ?Hc.
  - intros rs c rr. apply resolveStatus_code.
  - intros rs [Hnone|(c & Hc & [->|Hg])]; unfold resolveStatus.
    + now rewrite Hnone.
    + now rewrite Hc.
    + rewrite Hc, Hg. now destruct (truthy (JNum c)).
Qed.

Lemma mock_fallbacks_witness :
  let w := Petstore.started false (ValidateBool true) [] in
  router (this w) = Some Petstore.petRouter
  /\ getOperation Petstore.petRouter "unknown" = None
  /\ mockResponseForOperation Petstore.ext "unknown" Petstore.noOpts w
     = (inr (emptyMock 200), w).
Proof.
  cbv zeta. split; [reflexivity|]. split; [reflexivity|].
  apply (proj1 (@mock_fallbacks Petstore.ext
                  (Petstore.started false (ValidateBool true) [])
                  Petstore.petRouter "unknown" Petstore.noOpts eq_refl)).
  reflexivity.
Defined.

(** C4 as stated fails on the status: asked for the declared response 404,
    which has no content, the answer is the empty object with status 404,
    not 200. *)
Lemma mock_no_content_keeps_status :
  let w := Petstore.started false (ValidateBool true) [] in
  let opts := {| code := Some 404%Z; mediaType := None; exampleName := None |} in
  (exists rs rr,
      responses Petstore.getPets = Some rs
      /\ JSObject.get rs "404" = Some rr /\ content rr = None)
  /\ mockResponseForOperation Petstore.ext "getPets" opts w
     = (inr {| status := 404; mock := JObj [] |}, w)
  /\ mockResponseForOperation Petstore.ext "getPets" opts w
     <> (inr {| status := 200; mock := JObj [] |}, w).
Proof.
  cbv zeta. split; [|split].
  - eexists _, _. repeat split; reflexivity.
  - reflexivity.
  - intros H. vm_compute in H. discriminate H.
Qed.

(** Two more inputs on which [mockResponseForOperation] does not return:
    a media type entry that lists no named example, and an instance that
    has not been initialised. *)
Lemma mock_throws :
  fst (mockResponseForOperation Petstore.ext "listOwners" Petstore.noOpts
         (Petstore.started false (ValidateBool true) []))
  = inl (TypeError "Cannot read properties of undefined (reading 'value')")
  /\ fst (mockResponseForOperation Petstore.ext "getPets" Petstore.noOpts
            (Petstore.fresh false (ValidateBool true) []))
     = inl (TypeError "Cannot read properties of undefined (router)").
Proof. split; reflexivity. Qed.

(** *** Media type *)

(** C6 as stated fails when the option names a media type that is not
    declared: the code goes to the first declared media type even though
    application/json is declared. *)
Lemma mediaType_unknown_skips_json :
  let w := Petstore.started false (ValidateBool true) [] in
  let opts := {| code := None; mediaType := Some "text/xml";
                 exampleName := None |} in
  let cont := [("text/plain", Petstore.plainText);
               ("application/json", Petstore.jsonBody)] in
  resolvesTo Petstore.ext w "getPets" opts 200 Petstore.plainText
  /\ spec_resolveMediaType cont opts = Some Petstore.jsonBody
  /\ resolveMediaResponse cont opts = Some Petstore.plainText
  /\ resolveMediaResponse cont opts <> spec_resolveMediaType cont opts
  /\ fst (mockResponseForOperation Petstore.ext "getPets" opts w)
     = inr {| status := 200; mock := JStr "plain" |}.
Proof.
  cbv zeta. split; [|split; [|split; [|split]]]; try reflexivity.
  - exists Petstore.petRouter, Petstore.getPets. eexists _, _, _.
    repeat split; reflexivity.
  - intros H. vm_compute in H. discriminate H.
Qed.

Lemma mediaAt_own (cont : JSObject.t MediaTypeObject) k e :
  JSObject.get cont k = Some e -> mediaAt cont k = Some e.
Proof. intros H. unfold mediaAt. now rewrite H. Qed.

Lemma mediaAt_plain (cont : JSObject.t MediaTypeObject) k :
  JSObject.get cont k = None -> inheritedName k = false ->
  mediaAt cont k = None.
Proof. intros H Hi. unfold mediaAt. now rewrite H, Hi. Qed.

Lemma mediaAt_inherited (cont : JSObject.t MediaTypeObject) k :
  JSObject.get cont k = None -> inheritedName k = true ->
  mediaAt cont k = Some blankMedia.
Proof. intros H Hi. unfold mediaAt. now rewrite H, Hi. Qed.

(** Array-index names are enumerated first, whatever the order of
    declaration: [Object.keys] of an object declared as b, 10, 2 lists
    2, 10, b. *)
Lemma array_index_names_enumerate_first :
  JSObject.keys (JSObject.declared [("b", 1%Z); ("10", 2%Z); ("2", 3%Z)])
  = ["2"; "10"; "b"].
Proof. reflexivity. Qed.

(** C6, as the code has it: the media type entry used is the one named by
    the [mediaType] option when that option is given and declared; the
    application/json entry when no option is given and application/json
    is declared; when the name looked up is not declared and is not the
    name of a member inherited from [Object.prototype], the first entry
    of the content map in the order of [Object.keys], also when
    application/json is declared but an undeclared media type was asked
    for; and when the media type asked for is not declared but is the
    name of an inherited member, that member, from which the mock is the
    empty object.  The order of [Object.keys] is the order of declaration
    when the declared names are distinct and none is an array index. *)
Theorem mediaType_resolution (ext : Externals) (w : World)
        (r : OpenAPIRouter) (opId : string) (opts : MockOpts)
        (op : Operation) (rs : JSObject.t ResponseObject) (st : Z)
        (rr : ResponseObject) (cont : JSObject.t MediaTypeObject) :
  router (this w) = Some r -> getOperation r opId = Some op ->
  responses op = Some rs -> resolveStatus ext rs opts = (st, Some rr) ->
  content rr = Some cont ->
  let used e :=
    mockResponseForOperation ext opId opts w = (mockFrom ext st e opts, w) in
  (forall m e,
      mediaType opts = Some m -> m <> "" ->
      JSObject.get cont m = Some e -> used e)
  /\ (forall e,
         strTruthy (mediaType opts) = false ->
         JSObject.get cont "application/json" = Some e -> used e)
  /\ (forall m k e rest,
         mediaType opts = Some m -> m <> "" ->
         JSObject.get cont m = None -> inheritedName m = false ->
         cont = (k, e) :: rest -> used e)
  /\ (forall k e rest,
         strTruthy (mediaType opts) = false ->
         JSObject.get cont "application/json" = None ->
         cont = (k, e) :: rest -> used e)
  /\ (forall m,
         mediaType opts = Some m -> m <> "" ->
         JSObject.get cont m = None -> inheritedName m = true ->
         used blankMedia
         /\ mockResponseForOperation ext opId opts w = (inr (emptyMock st), w))
  /\ (forall decl,
         cont = JSObject.declared decl -> plainNames decl -> cont = decl).
Proof.
  intros Hr Hop Hrs Hst Hc used. subst used. cbv beta.
  assert (Hne : forall m, m <> "" -> truthy (JStr m) = true).
  { intros m Hm. cbn [truthy]. destruct (String.eqb_spec m ""); [congruence|reflexivity]. }
  assert (Hjson : inheritedName "application/json" = false) by reflexivity.
  repeat apply conj.
  - intros m e Hm Hn Hg. erewrite mock_content by eassumption.
    unfold resolveMediaResponse.
    now rewrite Hm, (Hne m Hn), (mediaAt_own _ _ Hg).
  - intros e Hm Hg. erewrite mock_content by eassumption.
    unfold resolveMediaResponse. unfold strTruthy in Hm.
    destruct (mediaType opts) as [m|]; [rewrite Hm|];
      now rewrite (mediaAt_own _ _ Hg).
  - intros m k e rest Hm Hn Hg Hi ->. erewrite mock_content by eassumption.
    unfold resolveMediaResponse.
    rewrite Hm, (Hne m Hn), (mediaAt_plain _ _ Hg Hi).
    now rewrite first_cons.
  - intros k e rest Hm Hg ->. erewrite mock_content by eassumption.
    unfold resolveMediaResponse. unfold strTruthy in Hm.
    destruct (mediaType opts) as [m|]; [rewrite Hm|];
      rewrite (mediaAt_plain _ _ Hg Hjson); now rewrite first_cons.
  - intros m Hm Hn Hg Hi.
    assert (Hmock : mockResponseForOperation ext opId opts w
                    = (mockFrom ext st blankMedia opts, w)).
    { erewrite mock_content by eassumption. unfold resolveMediaResponse.
      now rewrite Hm, (Hne m Hn), (mediaAt_inherited _ _ Hg Hi). }
    split; [exact Hmock|]. rewrite Hmock. unfold mockFrom.
    now rewrite selectMock_blank.
  - intros decl -> Hplain. now apply declared_plain.
Qed.

Lemma mediaType_resolution_witness :
  let w := Petstore.started false (ValidateBool true) [] in
  let opts := {| code := None; mediaType := Some "text/plain";
                 exampleName := None |} in
  mockResponseForOperation Petstore.ext "getPets" opts w
  = (mockFrom Petstore.ext 200 Petstore.plainText opts, w)
  /\ mockResponseForOperation Petstore.ext "getPets" Petstore.noOpts w
     = (mockFrom Petstore.ext 200 Petstore.jsonBody Petstore.noOpts, w)
  /\ mockResponseForOperation Petstore.ext "getPets"
       {| code := None; mediaType := Some "constructor";
          exampleName := None |} w
     = (inr (emptyMock 200), w).
Proof.
  cbv zeta. split; [|split].
  - refine (proj1 (@mediaType_resolution Petstore.ext
                     (Petstore.started false (ValidateBool true) [])
                     Petstore.petRouter "getPets"
                     {| code := None; mediaType := Some "text/plain";
                        exampleName := None |}
                     Petstore.getPets _ 200
                     _ _ eq_refl eq_refl eq_refl eq_refl eq_refl)
                  "text/plain" Petstore.plainText eq_refl _ eq_refl).
    discriminate.
  - exact (proj1 (proj2 (@mediaType_resolution Petstore.ext
                     (Petstore.started false (ValidateBool true) [])
                     Petstore.petRouter "getPets" Petstore.noOpts
                     Petstore.getPets _ 200
                     _ _ eq_refl eq_refl eq_refl eq_refl eq_refl))
                  Petstore.jsonBody eq_refl eq_refl).
  - refine (proj2 (proj1 (proj2 (proj2 (proj2 (proj2
             (@mediaType_resolution Petstore.ext
                     (Petstore.started false (ValidateBool true) [])
                     Petstore.petRouter "getPets"
                     {| code := None; mediaType := Some "constructor";
                        exampleName := None |}
                     Petstore.getPets _ 200
                     _ _ eq_refl eq_refl eq_refl eq_refl eq_refl)))))
                  "constructor" eq_refl _ eq_refl eq_refl)).
    discriminate.
Defined.

(** *** Examples and schema *)





(** ** Initialisation *)

Lemma init_success ext w w1 :
  init ext w = (inr tt, w1) ->
  initalized (this w1) = true
  /\ exists r vd, router (this w1) = Some r /\ validator (this w1) = Some vd.
Proof.
  unfold init. unfold bind at 1.
  match goal with
  | |- context [tryCatch ?m ?h w] => destruct (tryCatch m h w) as [[e|u] w0]
  end; [discriminate|].
  run. intros H. apply registerAll_frame in H.
  destruct H as (Hi & Hr & Hv & _). cbn in Hi, Hr, Hv.
  rewrite Hi, Hr, Hv. eauto.
Qed.

Lemma constructor_consistent opts : consistent (constructor opts).
Proof. intros H. discriminate H. Qed.

Lemma autoInit_success ext w w1 :
  consistent (this w) -> autoInit ext w = (inr tt, w1) ->
  initalized (this w1) = true
  /\ exists r vd, router (this w1) = Some r /\ validator (this w1) = Some vd.
Proof.
  intros Hc. unfold autoInit. run.
  destruct (initalized (this w)) eqn:Hi; cbn [negb].
  - intros [= <-]. auto.
  - apply init_success.
Qed.


(** ** Request handling *)

Lemma logged_nil w : logged w [] = w.
Proof. unfold logged. rewrite app_nil_r. apply world_eta. Qed.

Lemma invoke_fun role h context handlerArgs w :
  invoke role (Some (HFun h)) context handlerArgs w
  = (callResult (this w) h context handlerArgs,
     logged w [Call role h context (withContext (this w)) handlerArgs]).
Proof. reflexivity. Qed.

Ltac steps :=
  repeat (first [ progress cbn [operation with_operation this console fst snd
                                 isSome negb andb orb]
                | match goal with
                  | H : _ = _ |- _ => rewrite H
                  end ];
          cbv beta iota zeta).

Lemma pipeline_notFound ext req args w r :
  router (this w) = Some r -> routed (matchOperation r req) = None ->
  pipeline ext req args emptyContext w = notFound (baseContext r req) args w.
Proof.
  intros Hr Hm. unfold pipeline. run. now steps.
Qed.

Lemma pipeline_routed ext req args w r op X :
  router (this w) = Some r -> routed (matchOperation r req) = Some (op, X) ->
  pipeline ext req args emptyContext w
  = (toValidate <- validateGate (routeContext r req op) args ;;
     cv <- validateStage toValidate req op (routeContext r req op) args ;;
     match cv with
     | (context, Some v) => ret (context, v)
     | (context, None) => dispatch ext X context args
     end) w.
Proof.
  intros Hr Hm. unfold pipeline.
  cbv [bind getThis theRouter ret throw]. now steps.
Qed.

Lemma validateGate_value context args w :
  validateGate context args w = (gateValue (this w) context args, w).
Proof.
  unfold validateGate, gateValue. run. now destruct (validate (this w)).
Qed.

Lemma validateStage_off req op context args w :
  validateStage false req op context args w = (inr (context, None), w).
Proof. reflexivity. Qed.

Lemma validateStage_pass req op context args w vd :
  validator (this w) = Some vd ->
  errors (validateRequest vd req op) = None
  \/ slotTruthy (JSObject.get (handlers (this w)) "validationFail") = false ->
  validateStage true req op context args w
  = (inr (with_validation (Some (validateRequest vd req op)) context, None),
     logged w [Validate req op]).
Proof.
  intros Hv Hpass. unfold validateStage. run. rewrite Hv.
  cbv beta iota zeta. cbn [this console].
  destruct Hpass as [He|Hs].
  - now rewrite He.
  - rewrite Hs. now rewrite andb_false_r.
Qed.

Lemma validateStage_fail req op context args w vd errs f :
  validator (this w) = Some vd ->
  errors (validateRequest vd req op) = Some errs ->
  JSObject.get (handlers (this w)) "validationFail" = Some (HFun f) ->
  let vctx := with_validation (Some (validateRequest vd req op)) context in
  validateStage true req op context args w
  = (match callResult (this w) f vctx args with
     | inl e => inl e
     | inr v => inr (vctx, Some v)
     end,
     logged w [Validate req op;
               Call ValidationFail f vctx (withContext (this w)) args]).
Proof.
  intros Hv He Hf vctx. subst vctx. unfold validateStage. run.
  rewrite Hv. cbv beta iota zeta. cbn [this console]. rewrite He, Hf.
  cbn [isSome slotTruthy andb]. rewrite invoke_fun.
  unfold logged, callResult. cbn [this console]. rewrite <- app_assoc.
  cbn [app].
  now destruct (if withContext (this w) then _ else _).
Qed.

Lemma handlerAt_own ext (hs : JSObject.t HandlerSlot) k s :
  JSObject.get hs k = Some s -> handlerAt ext hs k = Some s.
Proof. intros H. unfold handlerAt. now rewrite H. Qed.

Lemma handlerAt_plain ext (hs : JSObject.t HandlerSlot) k :
  inheritedName k = false -> handlerAt ext hs k = JSObject.get hs k.
Proof.
  unfold inheritedName, handlerAt. intros H.
  apply orb_false_elim in H. destruct H as [H1 H2]. rewrite H1, H2.
  now destruct (JSObject.get hs k).
Qed.

Lemma handlerAt_inherited ext (hs : JSObject.t HandlerSlot) k :
  JSObject.get hs k = None -> includes prototypeFunctions k = true ->
  handlerAt ext hs k = Some (HFun (Object_prototype ext k)).
Proof. intros H Hi. unfold handlerAt. now rewrite H, Hi. Qed.

Lemma dispatch_found ext X context args w h :
  handlerAt ext (handlers (this w)) X = Some (HFun h) ->
  dispatch ext X context args w
  = (withCtx context (callResult (this w) h context args),
     logged w [Call RouteHandler h context (withContext (this w)) args]).
Proof.
  intros Hh. unfold dispatch. run. rewrite Hh. cbn [slotTruthy negb].
  rewrite invoke_fun. unfold withCtx.
  now destruct (callResult (this w) h context args).
Qed.

Lemma dispatch_route ext X context args w h :
  JSObject.get (handlers (this w)) X = Some (HFun h) ->
  dispatch ext X context args w
  = (withCtx context (callResult (this w) h context args),
     logged w [Call RouteHandler h context (withContext (this w)) args]).
Proof. intros Hh. apply dispatch_found. now apply handlerAt_own. Qed.


Lemma dispatch_notImplemented ext X context args w n :
  slotTruthy (JSObject.get (handlers (this w)) X) = false ->
  inheritedName X = false ->
  orElse (JSObject.get (handlers (this w)) "501")
         (JSObject.get (handlers (this w)) "notImplemented")
  = Some (HFun n) ->
  dispatch ext X context args w
  = (withCtx context (callResult (this w) n context args),
     logged w [Call NotImplemented n context (withContext (this w)) args]).
Proof.
  intros HX Hi Hn. unfold dispatch. run.
  rewrite (@handlerAt_plain ext _ _ Hi). rewrite HX, Hn.
  cbn [slotTruthy negb]. rewrite invoke_fun. unfold withCtx.
  now destruct (callResult (this w) n context args).
Qed.


Lemma notFound_handler context args w n :
  orElse (JSObject.get (handlers (this w)) "404")
         (JSObject.get (handlers (this w)) "notFound")
  = Some (HFun n) ->
  notFound context args w
  = (withCtx context (callResult (this w) n context args),
     logged w [Call NotFound n context (withContext (this w)) args]).
Proof.
  intros Hn. unfold notFound. run. rewrite Hn.
  cbn [slotTruthy negb]. rewrite invoke_fun. unfold withCtx.
  now destruct (callResult (this w) n context args).
Qed.

Lemma postResponse_hooked context v args w p :
  JSObject.get (handlers (this w)) "postResponseHandler" = Some (HFun p) ->
  postResponse context v args w
  = (callResult (this w) p (with_response (Some v) context) args,
     logged w [Call PostResponse p (with_response (Some v) context)
                    (withContext (this w)) args]).
Proof.
  intros Hp. unfold postResponse. run. rewrite Hp. cbn [slotTruthy].
  now rewrite invoke_fun.
Qed.

Lemma postResponse_none context v args w :
  slotTruthy (JSObject.get (handlers (this w)) "postResponseHandler") = false ->
  postResponse context v args w = (inr v, w).
Proof. intros Hp. unfold postResponse. run. now rewrite Hp. Qed.

Lemma handleRequest_ready ext req args w w1 :
  autoInit ext w = (inr tt, w1) ->
  handleRequest ext req args w
  = (cr <- pipeline ext req args emptyContext ;;
     postResponse (fst cr) (snd cr) args) w1.
Proof.
  intros Hi. unfold handleRequest. erewrite bind_inr by eassumption.
  unfold bind. destruct (pipeline ext req args emptyContext w1) as [[e|[c v]] w2];
    reflexivity.
Qed.

Lemma handleRequest_passed ext req args w w1 r vd op X g :
  ready ext w w1 r vd ->
  routed (matchOperation r req) = Some (op, X) ->
  gateValue (this w1) (routeContext r req op) args = inr g ->
  letsThrough (this w1) vd req op g ->
  handleRequest ext req args w
  = afterValidation ext X
      (if g then validatedContext r vd req op else routeContext r req op)
      args
      (logged w1 (if g then [Validate req op] else [])).
Proof.
  intros (Hi & Hr & Hv) Hm Hg Hpass.
  erewrite handleRequest_ready by eassumption.
  unfold bind at 1. erewrite pipeline_routed by eassumption.
  unfold bind at 1. rewrite validateGate_value, Hg.
  unfold bind at 1. destruct g.
  - destruct Hpass as [Hf|Hpass]; [discriminate|].
    erewrite validateStage_pass by eassumption.
    unfold afterValidation, bind, validatedContext. reflexivity.
  - rewrite validateStage_off, logged_nil.
    unfold afterValidation, bind. reflexivity.
Qed.

(** *** Events of the stages *)

Ltac explode :=
  repeat (cbv beta iota zeta; cbn [this console fst snd];
          match goal with
          | |- context [match ?x with _ => _ end] =>
              lazymatch x with
              | context [match _ with _ => _ end] => fail
              | _ => destruct x eqn:?
              end
          end);
  cbv beta iota zeta; cbn [this console fst snd].

Ltac grown :=
  split; [reflexivity|];
  eexists; split;
  [ rewrite <- ?app_assoc; cbn [app];
    first [reflexivity | symmetry; apply app_nil_r]
  | ].


Lemma postResponse_events context v args w out w' :
  postResponse context v args w = (out, w') ->
  this w' = this w
  /\ exists evs,
      console w' = (console w ++ evs)%list
      /\ dispatchCalls evs = []
      /\ filter isValidate evs = []
      /\ (forall role h c pc a,
             In (Call role h c pc a) evs -> validation c = validation context).
Proof.
  unfold postResponse, invoke.
  cbv [bind getThis ret throw emit lift].
  explode; intros [= <- <-]; grown; cbn; repeat split; try reflexivity;
    intros role h' c pc a Hin;
    repeat match goal with
      | H : _ \/ _ |- _ => destruct H
      | H : False |- _ => destruct H
      | H : Call _ _ _ _ _ = Call _ _ _ _ _ |- _ =>
          injection H as <- <- <- <- <-
      end; reflexivity.
Qed.

Lemma afterValidation_events ext X context args w out w' :
  afterValidation ext X context args w = (out, w') ->
  this w' = this w
  /\ exists evs,
      console w' = (console w ++ evs)%list
      /\ filter isValidate evs = []
      /\ (forall role h c pc a,
             In (Call role h c pc a) evs -> validation c = validation context).
Proof.
  unfold afterValidation, dispatch, postResponse, invoke, orElse.
  cbv [bind getThis ret throw emit lift].
  explode; intros [= <- <-]; grown; cbn; repeat split; try reflexivity;
    intros role h' c pc a Hin;
    repeat match goal with
      | H : _ \/ _ |- _ => destruct H
      | H : False |- _ => destruct H
      | H : Call _ _ _ _ _ = Call _ _ _ _ _ |- _ =>
          injection H as <- <- <- <- <-
      end; reflexivity.
Qed.

Lemma afterValidation_route ext X context args w h :
  JSObject.get (handlers (this w)) X = Some (HFun h) ->
  afterValidation ext X context args w
  = match callResult (this w) h context args with
    | inl e =>
        (inl e,
         logged w [Call RouteHandler h context (withContext (this w)) args])
    | inr v =>
        postResponse context v args
          (logged w [Call RouteHandler h context (withContext (this w)) args])
    end.
Proof.
  intros Hh. unfold afterValidation, bind.
  erewrite dispatch_route by eassumption.
  now destruct (callResult (this w) h context args).
Qed.

Lemma routed_none r req :
  matchOperation r req = None
  \/ (exists op, matchOperation r req = Some op /\ operationId op = None) ->
  routed (matchOperation r req) = None.
Proof.
  intros [H|(op & H & Hid)]; rewrite H; [reflexivity|].
  unfold routed. now rewrite Hid.
Qed.


Lemma logged_logged w a b :
  logged (logged w a) b = logged w (a ++ b)%list.
Proof. unfold logged. cbn [this console]. now rewrite <- app_assoc. Qed.

(** One call of [h], then the post-response hook: the request is
    answered by [h]. *)
Lemma answered_then_hook role h ctx args w0 :
  answeredBy (this w0) role h ctx args w0
    (match callResult (this w0) h ctx args with
     | inl e =>
         (inl e, logged w0 [Call role h ctx (withContext (this w0)) args])
     | inr v =>
         postResponse ctx v args
           (logged w0 [Call role h ctx (withContext (this w0)) args])
     end).
Proof.
  unfold answeredBy. cbv zeta. split; [|split].
  - intros e He. now rewrite He.
  - intros v Hv Hp. rewrite Hv. now rewrite postResponse_none.
  - intros v p Hv Hp. rewrite Hv.
    erewrite postResponse_hooked by exact Hp.
    now rewrite logged_logged.
Qed.

Lemma afterValidation_found ext X context args w h :
  handlerAt ext (handlers (this w)) X = Some (HFun h) ->
  afterValidation ext X context args w
  = match callResult (this w) h context args with
    | inl e =>
        (inl e,
         logged w [Call RouteHandler h context (withContext (this w)) args])
    | inr v =>
        postResponse context v args
          (logged w [Call RouteHandler h context (withContext (this w)) args])
    end.
Proof.
  intros Hh. unfold afterValidation, bind.
  erewrite dispatch_found by eassumption.
  now destruct (callResult (this w) h context args).
Qed.

Lemma afterValidation_fallback ext X context args w n :
  slotTruthy (JSObject.get (handlers (this w)) X) = false ->
  inheritedName X = false ->
  orElse (JSObject.get (handlers (this w)) "501")
         (JSObject.get (handlers (this w)) "notImplemented")
  = Some (HFun n) ->
  afterValidation ext X context args w
  = match callResult (this w) n context args with
    | inl e =>
        (inl e,
         logged w [Call NotImplemented n context (withContext (this w)) args])
    | inr v =>
        postResponse context v args
          (logged w [Call NotImplemented n context (withContext (this w))
                          args])
    end.
Proof.
  intros HX Hi Hn. unfold afterValidation, bind.
  erewrite dispatch_notImplemented by eassumption.
  now destruct (callResult (this w) n context args).
Qed.

(** The handler that the table holds or inherits under X answers the
    request that the validation stage lets through. *)
Lemma found_handler_answers (ext : Externals) (req : Request)
      (args : list JSValue) (w w1 : World) (r : OpenAPIRouter)
      (vd : OpenAPIValidator) (op : Operation) (X : string)
      (h : Handler) (g : bool) :
  ready ext w w1 r vd ->
  routed (matchOperation r req) = Some (op, X) ->
  handlerAt ext (handlers (this w1)) X = Some (HFun h) ->
  gateValue (this w1) (routeContext r req op) args = inr g ->
  letsThrough (this w1) vd req op g ->
  answeredBy (this w1) RouteHandler h
    (if g then validatedContext r vd req op else routeContext r req op)
    args (logged w1 (if g then [Validate req op] else []))
    (handleRequest ext req args w).
Proof.
  intros Hready Hm Hh Hg Hpass.
  erewrite handleRequest_passed by eassumption.
  erewrite afterValidation_found by exact Hh.
  exact (answered_then_hook RouteHandler h _ args
           (logged w1 (if g then [Validate req op] else []))).
Qed.

(** The events of handler resolution show the handler that the table
    selects. *)
Lemma afterValidation_targets ext X context args w out w' :
  afterValidation ext X context args w = (out, w') ->
  exists evs,
    console w' = (console w ++ evs)%list
    /\ targets evs = selection ext (handlers (this w)) X.
Proof.
  unfold afterValidation, selection, dispatch, postResponse, invoke, orElse,
    slotTruthy.
  cbv [bind getThis ret throw emit lift].
  explode; intros [= <- <-];
    (eexists; split;
     [ rewrite <- ?app_assoc; cbn [app];
       first [reflexivity | symmetry; apply app_nil_r]
     | try reflexivity; try discriminate; try congruence ]).
Qed.

Lemma targets_app a b : targets (a ++ b) = (targets a ++ targets b)%list.
Proof. unfold targets. apply flat_map_app. Qed.

Lemma passed_targets ext req args w w1 r vd op X g out w' evs :
  ready ext w w1 r vd ->
  routed (matchOperation r req) = Some (op, X) ->
  gateValue (this w1) (routeContext r req op) args = inr g ->
  letsThrough (this w1) vd req op g ->
  handleRequest ext req args w = (out, w') ->
  console w' = (console w1 ++ evs)%list ->
  targets evs = selection ext (handlers (this w1)) X.
Proof.
  intros Hready Hm Hg Hpass Hrun Hcon.
  erewrite handleRequest_passed in Hrun by eassumption.
  apply afterValidation_targets in Hrun.
  destruct Hrun as (evs' & Hcon' & Htargets).
  cbn [logged this console] in Hcon', Htargets.
  rewrite Hcon, <- app_assoc in Hcon'. apply app_inv_head in Hcon'.
  subst evs. rewrite targets_app, Htargets. now destruct g.
Qed.




(** The second half of C1 also fails when X is the name of a member of
    [Object.prototype]: with no handler registered at all, the inherited
    function is what the handler table yields under X, and it is called
    as the operation's handler. *)
Lemma inherited_member_dispatched (ext : Externals) (req : Request)
      (args : list JSValue) (w w1 : World) (r : OpenAPIRouter)
      (vd : OpenAPIValidator) (op : Operation) (X : string) (g : bool) :
  ready ext w w1 r vd ->
  routed (matchOperation r req) = Some (op, X) ->
  JSObject.get (handlers (this w1)) X = None ->
  includes prototypeFunctions X = true ->
  gateValue (this w1) (routeContext r req op) args = inr g ->
  letsThrough (this w1) vd req op g ->
  answeredBy (this w1) RouteHandler (Object_prototype ext X)
    (if g then validatedContext r vd req op else routeContext r req op)
    args (logged w1 (if g then [Validate req op] else []))
    (handleRequest ext req args w).
Proof.
  intros Hready Hm Hnone Hinh Hg Hpass.
  eapply found_handler_answers; try eassumption.
  now apply handlerAt_inherited.
Qed.

Lemma operationId_toString_not_raised :
  let w := Petstore.fresh false (ValidateBool true) [] in
  let req := Petstore.get "/describe" JNull in
  routed (matchOperation Petstore.petRouter req)
  = Some (Petstore.describe, "toString")
  /\ handlers (this (snd (handleRequest Petstore.ext req [] w))) = []
  /\ fst (handleRequest Petstore.ext req [] w)
     = inr (JStr "[object Undefined]")
  /\ targets (console (snd (handleRequest Petstore.ext req [] w)))
     = [(RouteHandler, Object_prototype Petstore.ext "toString")].
Proof. cbv zeta. repeat split. Qed.

(** The handler registered for the matched operation is the only one
    dispatched to when the validation stage lets the request through. *)
Lemma route_handler_only (ext : Externals) (req : Request)
        (args : list JSValue) (w w1 : World) (r : OpenAPIRouter)
        (vd : OpenAPIValidator) (op : Operation) (X : string)
        (h : Handler) (g : bool) :
  ready ext w w1 r vd ->
  routed (matchOperation r req) = Some (op, X) ->
  JSObject.get (handlers (this w1)) X = Some (HFun h) ->
  gateValue (this w1) (routeContext r req op) args = inr g ->
  letsThrough (this w1) vd req op g ->
  exists out w' evs,
    handleRequest ext req args w = (out, w')
    /\ this w' = this w1
    /\ console w' = (console w1 ++ evs)%list
    /\ dispatchCalls evs
       = [Call RouteHandler h
               (if g then validatedContext r vd req op
                else routeContext r req op)
               (withContext (this w1)) args].
Proof.
  intros Hready Hm Hh Hg Hpass.
  erewrite handleRequest_passed by eassumption.
  erewrite afterValidation_route by exact Hh.
  cbn [logged this].
  set (ctx := if g then validatedContext r vd req op
              else routeContext r req op).
  set (pre := if g then [Validate req op] else []).
  assert (Hpre : dispatchCalls pre = []) by (subst pre; now destruct g).
  destruct (callResult (this w1) h ctx args) as [e|v].
  - eexists _, _, _. split; [reflexivity|]. split; [reflexivity|].
    split; [cbn [logged console]; rewrite <- app_assoc; reflexivity|].
    unfold dispatchCalls in *. rewrite filter_app, Hpre. reflexivity.
  - destruct (postResponse ctx v args
                (logged (logged w1 pre)
                   [Call RouteHandler h ctx (withContext (this w1)) args]))
      as [out w'] eqn:Hpost.
    apply postResponse_events in Hpost.
    destruct Hpost as (Hthis & evs & Hcon & Hd & _).
    exists out, w', (pre ++ [Call RouteHandler h ctx (withContext (this w1)) args]
                         ++ evs)%list.
    split; [reflexivity|]. split; [exact Hthis|]. split.
    + rewrite Hcon. cbn [logged console]. now rewrite <- !app_assoc.
    + unfold dispatchCalls in *. rewrite !filter_app, Hpre, Hd. reflexivity.
Qed.

(** C3, as the code has it: on a ready instance, when a request matches
    operation X, a handler is registered under X, the validate gate
    evaluates without throwing and the validation stage lets the request
    through (the gate is off, or the validator reports no errors, or no
    validationFail handler is registered), the request is answered by
    that handler: it is called once, in the role of route handler, on the
    context of the run; what it throws is thrown, what it returns is
    returned, unless a post-response hook is registered, which is then
    called on that response and answers in its place.  The handler
    invocations of the run, the post-response hook apart, are exactly
    that one call. *)
Theorem registered_handler_dispatched (ext : Externals) (req : Request)
        (args : list JSValue) (w w1 : World) (r : OpenAPIRouter)
        (vd : OpenAPIValidator) (op : Operation) (X : string)
        (h : Handler) (g : bool) :
  ready ext w w1 r vd ->
  routed (matchOperation r req) = Some (op, X) ->
  JSObject.get (handlers (this w1)) X = Some (HFun h) ->
  gateValue (this w1) (routeContext r req op) args = inr g ->
  letsThrough (this w1) vd req op g ->
  let ctx := if g then validatedContext r vd req op
             else routeContext r req op in
  answeredBy (this w1) RouteHandler h ctx args
    (logged w1 (if g then [Validate req op] else []))
    (handleRequest ext req args w)
  /\ exists out w' evs,
      handleRequest ext req args w = (out, w')
      /\ this w' = this w1
      /\ console w' = (console w1 ++ evs)%list
      /\ dispatchCalls evs
         = [Call RouteHandler h ctx (withContext (this w1)) args].
Proof.
  intros Hready Hm Hh Hg Hpass ctx. subst ctx. split.
  - exact (@found_handler_answers ext req args w w1 r vd op X h g
             Hready Hm (@handlerAt_own ext _ _ _ Hh) Hg Hpass).
  - exact (@route_handler_only ext req args w w1 r vd op X h g
             Hready Hm Hh Hg Hpass).
Qed.

Lemma registered_handler_dispatched_witness :
  let hs := [("getPets", HFun (Petstore.answer "pets"));
             ("validationFail", HFun (Petstore.answer "invalid"))] in
  let w := Petstore.fresh false (ValidateBool true) hs in
  let w1 := Petstore.started false (ValidateBool true) hs in
  let req := Petstore.get "/pets" JNull in
  let ctx := validatedContext Petstore.petRouter Petstore.petValidator
               req Petstore.getPets in
  handleRequest Petstore.ext req [] w
  = (inr (JStr "pets"),
     logged (logged w1 [Validate req Petstore.getPets])
       [Call RouteHandler (Petstore.answer "pets") ctx true []])
  /\ exists out w' evs,
      handleRequest Petstore.ext req [] w = (out, w')
      /\ this w' = this w1
      /\ console w' = (console w1 ++ evs)%list
      /\ dispatchCalls evs
         = [Call RouteHandler (Petstore.answer "pets") ctx true []].
Proof.
  cbv zeta.
  assert (H := @registered_handler_dispatched Petstore.ext
            (Petstore.get "/pets" JNull) []
            (Petstore.fresh false (ValidateBool true)
               [("getPets", HFun (Petstore.answer "pets"));
                ("validationFail", HFun (Petstore.answer "invalid"))])
            (Petstore.started false (ValidateBool true)
               [("getPets", HFun (Petstore.answer "pets"));
                ("validationFail", HFun (Petstore.answer "invalid"))])
            Petstore.petRouter Petstore.petValidator Petstore.getPets
            "getPets" (Petstore.answer "pets") true).
  assert (Hready : ready Petstore.ext
            (Petstore.fresh false (ValidateBool true)
               [("getPets", HFun (Petstore.answer "pets"));
                ("validationFail", HFun (Petstore.answer "invalid"))])
            (Petstore.started false (ValidateBool true)
               [("getPets", HFun (Petstore.answer "pets"));
                ("validationFail", HFun (Petstore.answer "invalid"))])
            Petstore.petRouter Petstore.petValidator).
  { split; [|split]; vm_compute; reflexivity. }
  specialize (H Hready eq_refl eq_refl eq_refl (or_intror (or_introl eq_refl))).
  cbv zeta in H. destruct H as [Hans Hevs]. split.
  - exact (proj1 (proj2 Hans) (JStr "pets") eq_refl eq_refl).
  - exact Hevs.
Defined.

(** C3 as stated fails when the request is invalid and a validationFail
    handler is registered: the handler registered for the matched
    operation is not invoked at all, the validationFail handler is. *)
Lemma invalid_request_skips_registered_handler :
  let hs := [("getPets", HFun (Petstore.answer "pets"));
             ("validationFail", HFun (Petstore.answer "invalid"))] in
  let w := Petstore.fresh false (ValidateBool true) hs in
  let w1 := Petstore.started false (ValidateBool true) hs in
  let req := Petstore.get "/pets" (JStr "bad") in
  initalized (this w1) = true
  /\ routed (matchOperation Petstore.petRouter req)
     = Some (Petstore.getPets, "getPets")
  /\ JSObject.get (handlers (this w1)) "getPets"
     = Some (HFun (Petstore.answer "pets"))
  /\ fst (handleRequest Petstore.ext req [] w1) = inr (JStr "invalid")
  /\ dispatchCalls (console (snd (handleRequest Petstore.ext req [] w1)))
     = [Call ValidationFail (Petstore.answer "invalid")
             (validatedContext Petstore.petRouter Petstore.petValidator
                req Petstore.getPets)
             true []].
Proof. cbv zeta. repeat split; vm_compute; reflexivity. Qed.

(** The run of a request that the validator rejects, with a
    validationFail handler registered. *)
Lemma validationFail_run (ext : Externals) (req : Request)
      (args : list JSValue) (w w1 : World) (r : OpenAPIRouter)
      (vd : OpenAPIValidator) (op : Operation) (X : string)
      (errs : list JSValue) (f : Handler) :
  ready ext w w1 r vd ->
  routed (matchOperation r req) = Some (op, X) ->
  gateValue (this w1) (routeContext r req op) args = inr true ->
  errors (validateRequest vd req op) = Some errs ->
  JSObject.get (handlers (this w1)) "validationFail" = Some (HFun f) ->
  let vctx := validatedContext r vd req op in
  let w0 := logged w1 [Validate req op] in
  handleRequest ext req args w
  = match callResult (this w1) f vctx args with
    | inl e =>
        (inl e,
         logged w0 [Call ValidationFail f vctx (withContext (this w1)) args])
    | inr v =>
        postResponse vctx v args
          (logged w0 [Call ValidationFail f vctx (withContext (this w1)) args])
    end.
Proof.
  intros (Hi & Hr & Hv) Hm Hg He Hf vctx w0. subst vctx w0.
  erewrite handleRequest_ready by eassumption.
  unfold bind at 1. erewrite pipeline_routed by eassumption.
  unfold bind at 1. rewrite validateGate_value, Hg.
  unfold bind at 1. erewrite validateStage_fail by eassumption.
  fold (routeContext r req op). fold (validatedContext r vd req op).
  rewrite logged_logged. cbn [app].
  now destruct (callResult (this w1) f (validatedContext r vd req op) args).
Qed.

(** C2: on a ready instance, for a request that matches operation X and
    on which the validate gate is on.  When the validator reports errors
    and a validationFail handler is registered, the request is answered
    by that handler, called on the context that carries the validation
    result; it is the only handler invoked before the post-response
    hook, so the operation's handler is not invoked.  When the validator
    reports errors and no validationFail handler is registered, the run
    continues with handler resolution and the post-response hook
    ([afterValidation]), exactly as it does when the validator reports no
    errors; nothing is thrown on account of the errors, and in both
    cases a handler registered under X answers the request. *)
Theorem validation_errors_dispatch (ext : Externals) (req : Request)
        (args : list JSValue) (w w1 : World) (r : OpenAPIRouter)
        (vd : OpenAPIValidator) (op : Operation) (X : string) :
  ready ext w w1 r vd ->
  routed (matchOperation r req) = Some (op, X) ->
  gateValue (this w1) (routeContext r req op) args = inr true ->
  let vctx := validatedContext r vd req op in
  let w0 := logged w1 [Validate req op] in
  (forall errs f,
      errors (validateRequest vd req op) = Some errs ->
      JSObject.get (handlers (this w1)) "validationFail" = Some (HFun f) ->
      answeredBy (this w1) ValidationFail f vctx args w0
        (handleRequest ext req args w)
      /\ exists out w' evs,
          handleRequest ext req args w = (out, w')
          /\ console w' = (console w1 ++ Validate req op :: evs)%list
          /\ dispatchCalls evs
             = [Call ValidationFail f vctx (withContext (this w1)) args])
  /\ (forall errs,
         errors (validateRequest vd req op) = Some errs ->
         slotTruthy (JSObject.get (handlers (this w1)) "validationFail")
         = false ->
         handleRequest ext req args w = afterValidation ext X vctx args w0)
  /\ (errors (validateRequest vd req op) = None ->
      handleRequest ext req args w = afterValidation ext X vctx args w0)
  /\ (forall h,
         JSObject.get (handlers (this w1)) X = Some (HFun h) ->
         errors (validateRequest vd req op) = None
         \/ slotTruthy (JSObject.get (handlers (this w1)) "validationFail")
            = false ->
         answeredBy (this w1) RouteHandler h vctx args w0
           (handleRequest ext req args w)
         /\ exists out w' evs,
             handleRequest ext req args w = (out, w')
             /\ console w' = (console w1 ++ Validate req op :: evs)%list
             /\ dispatchCalls evs
                = [Call RouteHandler h vctx (withContext (this w1)) args]).
Proof.
  intros Hready Hm Hg vctx w0. split; [|split; [|split]].
  - intros errs f He Hf.
    rewrite (@validationFail_run ext req args w w1 r vd op X errs f
               Hready Hm Hg He Hf).
    fold vctx. fold w0. split.
    + exact (answered_then_hook ValidationFail f vctx args w0).
    + destruct (callResult (this w1) f vctx args) as [e|v].
      * eexists _, _, _. split; [reflexivity|]. split.
        -- subst w0. cbn [logged console]. rewrite <- app_assoc.
           reflexivity.
        -- reflexivity.
      * destruct (postResponse vctx v args
                    (logged w0 [Call ValidationFail f vctx
                                     (withContext (this w1)) args]))
          as [out w'] eqn:Hpost.
        apply postResponse_events in Hpost.
        destruct Hpost as (Hthis & evs & Hcon & Hd & _).
        exists out, w',
          (Call ValidationFail f vctx (withContext (this w1)) args :: evs).
        split; [reflexivity|]. split.
        -- rewrite Hcon. subst w0. cbn [logged console].
           now rewrite <- !app_assoc.
        -- unfold dispatchCalls in *. cbn [filter isDispatchCall].
           now rewrite Hd.
  - intros errs He Hs.
    erewrite handleRequest_passed with (g := true);
      [reflexivity|eassumption..|].
    right. now right.
  - intros He.
    erewrite handleRequest_passed with (g := true);
      [reflexivity|eassumption..|].
    right. now left.
  - intros h Hh Hpass.
    assert (Hlets : letsThrough (this w1) vd req op true) by now right.
    split.
    + exact (@found_handler_answers ext req args w w1 r vd op X h true
               Hready Hm (@handlerAt_own ext _ _ _ Hh) Hg Hlets).
    + erewrite handleRequest_passed with (g := true) by eassumption.
      erewrite afterValidation_route by exact Hh.
      cbn [logged this]. fold vctx.
      destruct (callResult (this w1) h vctx args) as [e|v] eqn:Hc.
      * eexists _, _, _. split; [reflexivity|]. split.
        -- cbn [logged console]. rewrite <- app_assoc. reflexivity.
        -- reflexivity.
      * destruct (postResponse vctx v args
                    (logged (logged w1 [Validate req op])
                       [Call RouteHandler h vctx (withContext (this w1))
                             args]))
          as [out w'] eqn:Hpost.
        apply postResponse_events in Hpost.
        destruct Hpost as (Hthis & evs & Hcon & Hd & _).
        exists out, w',
          (Call RouteHandler h vctx (withContext (this w1)) args :: evs).
        split; [reflexivity|]. split.
        -- rewrite Hcon. cbn [logged console]. now rewrite <- !app_assoc.
        -- unfold dispatchCalls in *. cbn [filter isDispatchCall].
           now rewrite Hd.
Qed.

Lemma validation_errors_dispatch_witness :
  let strictHs := [("getPets", HFun (Petstore.answer "pets"));
                   ("validationFail", HFun (Petstore.answer "invalid"))] in
  let advisoryHs := [("getPets", HFun (Petstore.answer "pets"))] in
  let req := Petstore.get "/pets" (JStr "bad") in
  let vctx := validatedContext Petstore.petRouter Petstore.petValidator req
                Petstore.getPets in
  handleRequest Petstore.ext req []
    (Petstore.fresh false (ValidateBool true) strictHs)
  = (inr (JStr "invalid"),
     logged (logged (Petstore.started false (ValidateBool true) strictHs)
               [Validate req Petstore.getPets])
       [Call ValidationFail (Petstore.answer "invalid") vctx true []])
  /\ handleRequest Petstore.ext req []
       (Petstore.fresh false (ValidateBool true) advisoryHs)
     = afterValidation Petstore.ext "getPets" vctx []
         (logged (Petstore.started false (ValidateBool true) advisoryHs)
            [Validate req Petstore.getPets])
  /\ handleRequest Petstore.ext req []
       (Petstore.fresh false (ValidateBool true) advisoryHs)
     = (inr (JStr "pets"),
        logged (logged (Petstore.started false (ValidateBool true) advisoryHs)
                  [Validate req Petstore.getPets])
          [Call RouteHandler (Petstore.answer "pets") vctx true []]).
Proof.
  cbv zeta.
  assert (Hstrict : ready Petstore.ext
            (Petstore.fresh false (ValidateBool true)
               [("getPets", HFun (Petstore.answer "pets"));
                ("validationFail", HFun (Petstore.answer "invalid"))])
            (Petstore.started false (ValidateBool true)
               [("getPets", HFun (Petstore.answer "pets"));
                ("validationFail", HFun (Petstore.answer "invalid"))])
            Petstore.petRouter Petstore.petValidator).
  { split; [|split]; vm_compute; reflexivity. }
  assert (Hadvisory : ready Petstore.ext
            (Petstore.fresh false (ValidateBool true)
               [("getPets", HFun (Petstore.answer "pets"))])
            (Petstore.started false (ValidateBool true)
               [("getPets", HFun (Petstore.answer "pets"))])
            Petstore.petRouter Petstore.petValidator).
  { split; [|split]; vm_compute; reflexivity. }
  split; [|split].
  - exact (proj1 (proj2 (proj1
             (proj1 (@validation_errors_dispatch Petstore.ext
                       (Petstore.get "/pets" (JStr "bad")) [] _ _ _ _
                       Petstore.getPets "getPets" Hstrict eq_refl eq_refl)
                [JStr "query is bad"] (Petstore.answer "invalid")
                eq_refl eq_refl)))
             (JStr "invalid") eq_refl eq_refl).
  - exact (proj1 (proj2 (@validation_errors_dispatch Petstore.ext
                       (Petstore.get "/pets" (JStr "bad")) [] _ _ _ _
                       Petstore.getPets "getPets" Hadvisory eq_refl eq_refl))
             [JStr "query is bad"] eq_refl eq_refl).
  - exact (proj1 (proj2 (proj1
             (proj2 (proj2 (proj2
                (@validation_errors_dispatch Petstore.ext
                       (Petstore.get "/pets" (JStr "bad")) [] _ _ _ _
                       Petstore.getPets "getPets" Hadvisory eq_refl eq_refl)))
                (Petstore.answer "pets") eq_refl (or_intror eq_refl))))
             (JStr "pets") eq_refl eq_refl).
Defined.



(** C10 as stated fails on its last clause: the same request to the same
    instance, routed to the same operation, is answered by the operation's
    handler when the gate is off and by the validationFail handler when
    the gate is on. *)
Lemma gate_value_changes_selection :
  let hs := [("getPets", HFun (Petstore.answer "pets"));
             ("validationFail", HFun (Petstore.answer "invalid"))] in
  let off := Petstore.fresh false (ValidateBool false) hs in
  let on := Petstore.fresh false (ValidateBool true) hs in
  let req := Petstore.get "/pets" (JStr "bad") in
  routed (matchOperation Petstore.petRouter req)
  = Some (Petstore.getPets, "getPets")
  /\ handlers (this (snd (handleRequest Petstore.ext req [] off)))
     = handlers (this (snd (handleRequest Petstore.ext req [] on)))
  /\ targets (console (snd (handleRequest Petstore.ext req [] off)))
     = [(RouteHandler, Petstore.answer "pets")]
  /\ targets (console (snd (handleRequest Petstore.ext req [] on)))
     = [(ValidationFail, Petstore.answer "invalid")]
  /\ fst (handleRequest Petstore.ext req [] off) = inr (JStr "pets")
  /\ fst (handleRequest Petstore.ext req [] on) = inr (JStr "invalid")
  /\ fst (handleRequest Petstore.ext req [] off)
     <> fst (handleRequest Petstore.ext req [] on).
Proof.
  cbv zeta.
  split; [|split; [|split; [|split; [|split; [|split]]]]];
    try (vm_compute; reflexivity).
  intros H. vm_compute in H. discriminate H.
Qed.

(** C10, as the code has it: on a ready instance, for a request that
    matches operation X and on which the validate gate evaluates to
    false, the run is handler resolution and post-response hook on the
    context without validation result ([afterValidation], which does not
    consult the gate): the validator is not invoked, every handler
    invoked sees a context whose [validation] is undefined, and a
    handler registered under X answers the request.  The handler
    dispatched to is the one that the handler table selects for X, and
    that is also the handler dispatched to on any ready instance with the
    same router and the same handler table, whatever its gate, as long as
    its validation stage lets the request through. *)
Theorem gate_off_skips_validation (ext : Externals) (req : Request)
        (args : list JSValue) (w w1 : World) (r : OpenAPIRouter)
        (vd : OpenAPIValidator) (op : Operation) (X : string) :
  ready ext w w1 r vd ->
  routed (matchOperation r req) = Some (op, X) ->
  gateValue (this w1) (routeContext r req op) args = inr false ->
  handleRequest ext req args w
  = afterValidation ext X (routeContext r req op) args w1
  /\ (exists out w' evs,
         handleRequest ext req args w = (out, w')
         /\ this w' = this w1
         /\ console w' = (console w1 ++ evs)%list
         /\ filter isValidate evs = []
         /\ (forall role h c pc a,
                In (Call role h c pc a) evs -> validation c = None)
         /\ targets evs = selection ext (handlers (this w1)) X
         /\ (forall h,
                JSObject.get (handlers (this w1)) X = Some (HFun h) ->
                dispatchCalls evs
                = [Call RouteHandler h (routeContext r req op)
                        (withContext (this w1)) args]))
  /\ (forall h,
         JSObject.get (handlers (this w1)) X = Some (HFun h) ->
         answeredBy (this w1) RouteHandler h (routeContext r req op) args w1
           (handleRequest ext req args w))
  /\ (forall (u u1 : World) (vd' : OpenAPIValidator) (g : bool)
             (out : Exn + JSValue) (u' : World) (evs : list Event),
         ready ext u u1 r vd' ->
         handlers (this u1) = handlers (this w1) ->
         gateValue (this u1) (routeContext r req op) args = inr g ->
         letsThrough (this u1) vd' req op g ->
         handleRequest ext req args u = (out, u') ->
         console u' = (console u1 ++ evs)%list ->
         targets evs = selection ext (handlers (this w1)) X).
Proof.
  intros Hready Hm Hg.
  assert (Hoff : letsThrough (this w1) vd req op false) by now left.
  assert (Heq : handleRequest ext req args w
                = afterValidation ext X (routeContext r req op) args w1).
  { erewrite handleRequest_passed with (g := false);
      [now rewrite logged_nil|eassumption..]. }
  split; [exact Heq|]. split; [|split].
  - destruct (afterValidation ext X (routeContext r req op) args w1)
      as [out w'] eqn:Hafter.
    destruct (afterValidation_events _ _ _ _ _ Hafter)
      as (Hthis & evs & Hcon & Hval & Hctx).
    exists out, w', evs. repeat split; auto.
    + eapply passed_targets; eassumption.
    + intros h Hh.
      destruct (@route_handler_only ext req args w w1 r vd op X h false
                  Hready Hm Hh Hg Hoff)
        as (out' & w'' & evs' & Hrun & _ & Hcon' & Hcalls).
      rewrite Heq in Hrun. injection Hrun as <- <-.
      rewrite Hcon in Hcon'. apply app_inv_head in Hcon'. now subst evs'.
  - intros h Hh.
    pose proof (@found_handler_answers ext req args w w1 r vd op X h false
                  Hready Hm (@handlerAt_own ext _ _ _ Hh) Hg Hoff) as Hans.
    cbv iota in Hans. now rewrite logged_nil in Hans.
  - intros u u1 vd' g out u' evs Hu Hsame Hgu Hlets Hrun Hcon.
    rewrite <- Hsame. eapply passed_targets; eassumption.
Qed.

Lemma gate_off_skips_validation_witness :
  let never : BoolPredicate := fun _ _ => inr false in
  let hs := [("getPets", HFun (Petstore.answer "pets"));
             ("validationFail", HFun (Petstore.answer "invalid"))] in
  let w := Petstore.fresh false (ValidatePredicate never) hs in
  let w1 := Petstore.started false (ValidatePredicate never) hs in
  let req := Petstore.get "/pets" (JStr "bad") in
  let ctx := routeContext Petstore.petRouter req Petstore.getPets in
  handleRequest Petstore.ext req [] w
  = afterValidation Petstore.ext "getPets" ctx [] w1
  /\ handleRequest Petstore.ext req [] w
     = (inr (JStr "pets"),
        logged w1 [Call RouteHandler (Petstore.answer "pets") ctx true []]).
Proof.
  cbv zeta.
  assert (H := @gate_off_skips_validation Petstore.ext
                   (Petstore.get "/pets" (JStr "bad")) []
                   (Petstore.fresh false
                      (ValidatePredicate (fun _ _ => inr false))
                      [("getPets", HFun (Petstore.answer "pets"));
                       ("validationFail", HFun (Petstore.answer "invalid"))])
                   (Petstore.started false
                      (ValidatePredicate (fun _ _ => inr false))
                      [("getPets", HFun (Petstore.answer "pets"));
                       ("validationFail", HFun (Petstore.answer "invalid"))])
                   Petstore.petRouter Petstore.petValidator
                   Petstore.getPets "getPets").
  assert (Hready : ready Petstore.ext
            (Petstore.fresh false (ValidatePredicate (fun _ _ => inr false))
               [("getPets", HFun (Petstore.answer "pets"));
                ("validationFail", HFun (Petstore.answer "invalid"))])
            (Petstore.started false (ValidatePredicate (fun _ _ => inr false))
               [("getPets", HFun (Petstore.answer "pets"));
                ("validationFail", HFun (Petstore.answer "invalid"))])
            Petstore.petRouter Petstore.petValidator).
  { split; [|split]; vm_compute; reflexivity. }
  specialize (H Hready eq_refl eq_refl).
  destruct H as (H1 & _ & H3 & _). split.
  - exact H1.
  - exact (proj1 (proj2 (H3 (Petstore.answer "pets") eq_refl))
             (JStr "pets") eq_refl eq_refl).
Defined.

(** * Further properties *)

(** ** Initialisation *)

Ltac init_steps :=
  unfold init, validateDefinition, tryCatch;
  cbv [bind getThis setThis ret throw emit lift];
  cbn [this console];
  repeat (first [ progress cbn [this console document strict with_document
                                 with_definition negb]
                | match goal with
                  | H : _ = _ |- _ => rewrite H
                  end ];
          cbv beta iota zeta).

Lemma init_strict_cases (ext : Externals) (w : World) :
  strict (this w) = true ->
  (forall e,
      SwaggerParser_parse ext (inputDocument (this w)) = inl e ->
      init ext w = (inl e, w))
  /\ (forall d errs,
         SwaggerParser_parse ext (inputDocument (this w)) = inr d ->
         validateOpenAPI ext (Some d) = (false, errs) ->
         init ext w
         = (inl (invalidDocument ext errs),
            {| this := with_document (Some d) (this w);
               console := console w |}))
  /\ (forall d errs e,
         SwaggerParser_parse ext (inputDocument (this w)) = inr d ->
         validateOpenAPI ext (Some d) = (true, errs) ->
         SwaggerParser_dereference ext d = inl e ->
         init ext w
         = (inl e,
            {| this := with_document (Some d) (this w);
               console := console w |})).
Proof.
  intros Hs. split; [|split].
  - intros e Hp. init_steps. reflexivity.
  - intros d errs Hp Hv. init_steps. reflexivity.
  - intros d errs e Hp Hv Hd. init_steps. reflexivity.
Qed.

(** X1.  In strict mode an instance whose document cannot be loaded is
    not initialised: [init] rejects with the error of the parser, of the
    document check or of the dereferencing, logs nothing, builds no
    router and leaves the instance unmarked; only [document] may have
    been set. *)
Theorem init_strict_failure (ext : Externals) (w : World) :
  strict (this w) = true ->
  (forall e,
      SwaggerParser_parse ext (inputDocument (this w)) = inl e ->
      init ext w = (inl e, w))
  /\ (forall d errs,
         SwaggerParser_parse ext (inputDocument (this w)) = inr d ->
         validateOpenAPI ext (Some d) = (false, errs) ->
         init ext w
         = (inl (invalidDocument ext errs),
            {| this := with_document (Some d) (this w);
               console := console w |}))
  /\ (forall d errs e,
         SwaggerParser_parse ext (inputDocument (this w)) = inr d ->
         validateOpenAPI ext (Some d) = (true, errs) ->
         SwaggerParser_dereference ext d = inl e ->
         init ext w
         = (inl e,
            {| this := with_document (Some d) (this w);
               console := console w |})).
Proof. exact (init_strict_cases ext w). Qed.

Lemma init_lenient_cases (ext : Externals) (w : World) :
  strict (this w) = false ->
  let goesOn (e : Exn) (b : OpenAPIBackend) :=
    init ext w
    = registerAll (handlers (this w))
        {| this := marked ext b;
           console := console w ++ [ConsoleWarn (inl e)] |} in
  (forall e,
      SwaggerParser_parse ext (inputDocument (this w)) = inl e ->
      goesOn e (this w))
  /\ (forall d errs,
         SwaggerParser_parse ext (inputDocument (this w)) = inr d ->
         validateOpenAPI ext (Some d) = (false, errs) ->
         goesOn (invalidDocument ext errs) (with_document (Some d) (this w)))
  /\ (forall d errs e,
         SwaggerParser_parse ext (inputDocument (this w)) = inr d ->
         validateOpenAPI ext (Some d) = (true, errs) ->
         SwaggerParser_dereference ext d = inl e ->
         goesOn e (with_document (Some d) (this w))).
Proof.
  intros Hs goesOn. subst goesOn. cbv beta. split; [|split].
  - intros e Hp. init_steps. reflexivity.
  - intros d errs Hp Hv. init_steps. reflexivity.
  - intros d errs e Hp Hv Hd. init_steps. reflexivity.
Qed.

(** X2.  In lenient mode a document that cannot be loaded does not stop
    [init]: the error is logged as a warning, the router and the
    validator are built on whatever definition the instance holds (none,
    for a new instance), the instance is marked initialised and the
    handlers are then registered. *)
Theorem init_lenient_failure (ext : Externals) (w : World) :
  strict (this w) = false ->
  let goesOn (e : Exn) (b : OpenAPIBackend) :=
    init ext w
    = registerAll (handlers (this w))
        {| this := marked ext b;
           console := console w ++ [ConsoleWarn (inl e)] |} in
  (forall e,
      SwaggerParser_parse ext (inputDocument (this w)) = inl e ->
      goesOn e (this w))
  /\ (forall d errs,
         SwaggerParser_parse ext (inputDocument (this w)) = inr d ->
         validateOpenAPI ext (Some d) = (false, errs) ->
         goesOn (invalidDocument ext errs) (with_document (Some d) (this w)))
  /\ (forall d errs e,
         SwaggerParser_parse ext (inputDocument (this w)) = inr d ->
         validateOpenAPI ext (Some d) = (true, errs) ->
         SwaggerParser_dereference ext d = inl e ->
         goesOn e (with_document (Some d) (this w))).
Proof. exact (init_lenient_cases ext w). Qed.

Lemma init_loaded (ext : Externals) (w : World)
        (d d' : Document) (errs : list JSValue) :
  SwaggerParser_parse ext (inputDocument (this w)) = inr d ->
  validateOpenAPI ext (Some d) = (true, errs) ->
  SwaggerParser_dereference ext d = inr d' ->
  let r := newOpenAPIRouter ext (Some d') (apiRoot (this w)) in
  init ext w
  = registerAll (handlers (this w))
      {| this := marked ext (with_definition (Some d')
                               (with_document (Some d) (this w)));
         console := console w |}
  /\ (forall out w',
         init ext w = (out, w') ->
         initalized (this w') = true
         /\ router (this w') = Some r
         /\ validator (this w')
            = Some (newOpenAPIValidator ext (Some d') (ajvOpts (this w)) r)).
Proof.
  intros Hp Hv Hd r.
  assert (Heq : init ext w
                = registerAll (handlers (this w))
                    {| this := marked ext (with_definition (Some d')
                                             (with_document (Some d) (this w)));
                       console := console w |}).
  { init_steps. reflexivity. }
  split; [exact Heq|].
  intros out w' Hi. rewrite Heq in Hi. apply registerAll_frame in Hi.
  destruct Hi as (Hi & Hr & Hvd & _). now rewrite Hi, Hr, Hvd.
Qed.

(** X3.  Once the document is loaded, [init] marks the instance
    initialised before it registers the handlers of the constructor:
    whatever the registration does, also when it throws and [init]
    rejects, the instance ends up initialised, with the router and the
    validator built on the dereferenced definition. *)
Theorem init_marks_before_registering (ext : Externals) (w : World)
        (d d' : Document) (errs : list JSValue) :
  SwaggerParser_parse ext (inputDocument (this w)) = inr d ->
  validateOpenAPI ext (Some d) = (true, errs) ->
  SwaggerParser_dereference ext d = inr d' ->
  let r := newOpenAPIRouter ext (Some d') (apiRoot (this w)) in
  init ext w
  = registerAll (handlers (this w))
      {| this := marked ext (with_definition (Some d')
                               (with_document (Some d) (this w)));
         console := console w |}
  /\ (forall out w',
         init ext w = (out, w') ->
         initalized (this w') = true
         /\ router (this w') = Some r
         /\ validator (this w')
            = Some (newOpenAPIValidator ext (Some d') (ajvOpts (this w)) r)).
Proof. exact (@init_loaded ext w d d' errs). Qed.

Lemma init_strict_failure_witness :
  init Petstore.ext (unreadable true [])
  = (inl (Error "Error opening file api.yml"), unreadable true []).
Proof.
  exact (proj1 (@init_strict_failure Petstore.ext (unreadable true [])
                  eq_refl)
           (Error "Error opening file api.yml") eq_refl).
Defined.

Lemma init_lenient_failure_witness :
  init Petstore.ext (unreadable false [])
  = registerAll []
      {| this := marked Petstore.ext (this (unreadable false []));
         console := [ConsoleWarn (inl (Error "Error opening file api.yml"))] |}.
Proof.
  exact (proj1 (@init_lenient_failure Petstore.ext (unreadable false [])
                  eq_refl)
           (Error "Error opening file api.yml") eq_refl).
Defined.

Lemma init_marks_before_registering_witness :
  let w := Petstore.fresh false (ValidateBool true)
             [("getPets", HVal (JStr "oops"))] in
  fst (init Petstore.ext w) = inl (Error "Handler should be a function")
  /\ initalized (this (snd (init Petstore.ext w))) = true
  /\ router (this (snd (init Petstore.ext w))) = Some Petstore.petRouter.
Proof.
  cbv zeta. split; [vm_compute; reflexivity|].
  destruct (proj2 (@init_marks_before_registering Petstore.ext
                     (Petstore.fresh false (ValidateBool true)
                        [("getPets", HVal (JStr "oops"))])
                     (JObj []) (JObj []) [] eq_refl eq_refl eq_refl)
              _ _ (surjective_pairing _)) as (Hi & Hr & _).
  split; [exact Hi|exact Hr].
Defined.

(** ** Bulk registration *)





Lemma unopposed_handlers b t hs :
  unopposed b hs -> unopposed (with_handlers t b) hs.
Proof. intros H. exact H. Qed.












Lemma registerHandler_table k s w out w1 :
  registerHandler k s w = (out, w1) ->
  handlers (this w1) = handlers (this w)
  \/ handlers (this w1) = JSObject.set (handlers (this w)) k s.
Proof.
  unfold registerHandler. run.
  explode; intros [= <- <-]; cbn [this handlers with_handlers]; auto.
Qed.

Lemma registerHandler_quiet k s w out w1 :
  registerHandler k s w = (out, w1) ->
  exists evs, console w1 = (console w ++ evs)%list
              /\ forallb isWarning evs = true.
Proof.
  unfold registerHandler. run.
  explode; intros [= <- <-]; eexists;
    (split; [ rewrite <- ?app_assoc; cbn [app console];
              first [reflexivity | symmetry; apply app_nil_r]
            | reflexivity ]).
Qed.

Lemma get_of_NoDup A (o : JSObject.t A) k v :
  NoDup (JSObject.keys o) -> In (k, v) o -> JSObject.get o k = Some v.
Proof.
  induction o as [|[k0 v0] o IH]; intros Hnd Hin; [destruct Hin|].
  unfold JSObject.keys in Hnd. cbn [map fst] in Hnd.
  apply NoDup_cons_iff in Hnd. destruct Hnd as [Hnot Hnd].
  cbn [JSObject.get]. destruct Hin as [[= -> ->]|Hin].
  - now rewrite String.eqb_refl.
  - destruct (String.eqb_spec k0 k) as [->|_]; [|now apply IH].
    exfalso. apply Hnot. change k with (fst (k, v)). now apply in_map.
Qed.

Lemma set_get_id A (o : JSObject.t A) k v :
  JSObject.get o k = Some v -> JSObject.set o k v = o.
Proof.
  intros Hg. unfold JSObject.set. rewrite has_get, Hg. cbn [isSome].
  induction o as [|[k' v'] o IH]; cbn [JSObject.get JSObject.replace] in *;
    [discriminate|].
  destruct (String.eqb_spec k' k) as [->|_].
  - now injection Hg as ->.
  - now rewrite IH.
Qed.

Lemma registerAll_same_table hs w out w' :
  (forall k s, In (k, s) hs -> JSObject.get (handlers (this w)) k = Some s) ->
  registerAll hs w = (out, w') ->
  handlers (this w') = handlers (this w).
Proof.
  revert w. induction hs as [|[k s] hs IH]; intros w Hsame;
    cbn [registerAll].
  - unfold ret. now intros [= <- <-].
  - unfold bind at 1. destruct (slotTruthy (Some s)).
    + destruct (registerHandler k s w) as [[e|u] w1] eqn:Hreg.
      * intros [= <- <-].
        destruct (registerHandler_table _ _ _ Hreg) as [H|H]; [exact H|].
        rewrite H. apply set_get_id. apply Hsame. now left.
      * intros Hrest.
        assert (Ht : handlers (this w1) = handlers (this w)).
        { destruct (registerHandler_table _ _ _ Hreg) as [H|H]; [exact H|].
          rewrite H. apply set_get_id. apply Hsame. now left. }
        rewrite <- Ht. apply IH; [|exact Hrest].
        intros k' s' Hin. rewrite Ht. apply Hsame. now right.
    + unfold ret. intros Hrest. apply IH; [|exact Hrest].
      intros k' s' Hin. apply Hsame. now right.
Qed.

(** X7.  [init] never changes the handler table, whether it succeeds, or
    rejects while loading, or rejects while registering: the handlers it
    registers are the ones the instance already holds, each assigned to
    its own key.  (The table has no repeated key, as an object has.) *)
Theorem init_keeps_handlers (ext : Externals) (w : World) (out : Exn + unit)
        (w' : World) :
  NoDup (JSObject.keys (handlers (this w))) ->
  init ext w = (out, w') ->
  handlers (this w') = handlers (this w).
Proof.
  intros Hnd.
  assert (Hreg : forall W,
             handlers (this W) = handlers (this w) ->
             registerAll (handlers (this w)) W = (out, w') ->
             handlers (this w') = handlers (this w)).
  { intros W HW Hrun. rewrite <- HW.
    eapply registerAll_same_table; [|exact Hrun].
    intros k s Hin. rewrite HW. now apply get_of_NoDup. }
  destruct (strict (this w)) eqn:Hs;
    destruct (SwaggerParser_parse ext (inputDocument (this w)))
      as [e|d] eqn:Hp.
  - rewrite (proj1 (init_strict_cases ext w Hs) e Hp).
    now intros [= <- <-].
  - destruct (validateOpenAPI ext (Some d)) as [[|] errs] eqn:Hv.
    + destruct (SwaggerParser_dereference ext d) as [e|d'] eqn:Hd.
      * rewrite (proj2 (proj2 (init_strict_cases ext w Hs)) d errs e Hp Hv Hd).
        now intros [= <- <-].
      * rewrite (proj1 (init_loaded ext w Hp Hv Hd)).
        now apply Hreg.
    + rewrite (proj1 (proj2 (init_strict_cases ext w Hs)) d errs Hp Hv).
      now intros [= <- <-].
  - rewrite (proj1 (init_lenient_cases ext w Hs) e Hp). now apply Hreg.
  - destruct (validateOpenAPI ext (Some d)) as [[|] errs] eqn:Hv.
    + destruct (SwaggerParser_dereference ext d) as [e|d'] eqn:Hd.
      * rewrite (proj2 (proj2 (init_lenient_cases ext w Hs)) d errs e Hp Hv Hd).
        now apply Hreg.
      * rewrite (proj1 (init_loaded ext w Hp Hv Hd)).
        now apply Hreg.
    + rewrite (proj1 (proj2 (init_lenient_cases ext w Hs)) d errs Hp Hv).
      now apply Hreg.
Qed.

Lemma init_keeps_handlers_witness :
  let hs := [("getPets", HFun (Petstore.answer "pets"));
             ("bogus", HFun (Petstore.answer "x"))] in
  handlers (this (snd (init Petstore.ext
                         (Petstore.fresh true (ValidateBool true) hs)))) = hs.
Proof.
  cbv zeta.
  refine (@init_keeps_handlers Petstore.ext
            (Petstore.fresh true (ValidateBool true)
               [("getPets", HFun (Petstore.answer "pets"));
                ("bogus", HFun (Petstore.answer "x"))])
            _ _ _ (surjective_pairing _)).
  unfold JSObject.keys. cbn [map fst Petstore.fresh this constructor handlers
                              Petstore.options opts_handlers orDefault].
  repeat constructor; cbn; intuition discriminate.
Defined.

Lemma registerAll_quiet hs w out w' :
  registerAll hs w = (out, w') ->
  exists evs, console w' = (console w ++ evs)%list
              /\ forallb isWarning evs = true.
Proof.
  revert w. induction hs as [|[k s] hs IH]; intros w; cbn [registerAll].
  - unfold ret. intros [= <- <-]. exists []. now rewrite app_nil_r.
  - unfold bind at 1. destruct (slotTruthy (Some s)).
    + destruct (registerHandler k s w) as [[e|u] w1] eqn:Hreg.
      * intros [= <- <-]. eapply registerHandler_quiet; eauto.
      * intros Hrest.
        destruct (registerHandler_quiet _ _ _ Hreg) as (e1 & Hc1 & Hw1).
        destruct (IH _ Hrest) as (e2 & Hc2 & Hw2).
        exists (e1 ++ e2)%list. split.
        -- now rewrite Hc2, Hc1, app_assoc.
        -- now rewrite forallb_app, Hw1, Hw2.
    + unfold ret. apply IH.
Qed.

(** X8.  Registration, single or bulk, accepted or refused, touches
    nothing of the instance but its handler table (initialisation mark,
    router, validator, mode and options stay as they are), and all it
    writes to the console are warnings: it calls no handler and no
    validator. *)
Theorem register_frame (args : RegisterArgs) (w : World) (out : Exn + unit)
        (w' : World) :
  register args w = (out, w') ->
  sameButHandlers (this w) (this w')
  /\ exists evs, console w' = (console w ++ evs)%list
                 /\ forallb isWarning evs = true.
Proof.
  destruct args as [k s|hs]; cbn [register]; intros H.
  - split; [eapply registerHandler_frame|eapply registerHandler_quiet]; eauto.
  - split; [eapply registerAll_frame|eapply registerAll_quiet]; eauto.
Qed.

Lemma register_frame_witness :
  let w := Petstore.started false (ValidateBool true) [] in
  let w' := snd (register (RegisterOne "bogus" (HFun (Petstore.answer "x"))) w) in
  sameButHandlers (this w) (this w')
  /\ exists evs, console w' = (console w ++ evs)%list
                 /\ forallb isWarning evs = true.
Proof.
  cbv zeta.
  exact (@register_frame (RegisterOne "bogus" (HFun (Petstore.answer "x")))
           (Petstore.started false (ValidateBool true) []) _ _
           (surjective_pairing _)).
Defined.

(** ** Request handling: the other paths *)

Lemma pipeline_counts ext req args context w out w' :
  pipeline ext req args context w = (out, w') ->
  this w' = this w
  /\ exists evs,
      console w' = (console w ++ evs)%list
      /\ filter isPostCall evs = []
      /\ filter isWarning evs = []
      /\ List.length (dispatchCalls evs) <= 1
      /\ List.length (filter isValidate evs) <= 1.
Proof.
  unfold pipeline, notFound, validateGate, validateStage, dispatch,
    invoke, orElse.
  cbv [bind getThis theRouter theValidator ret throw emit lift].
  explode; intros [= <- <-]; grown; cbn; auto.
Qed.

Lemma postResponse_counts context v args w out w' :
  postResponse context v args w = (out, w') ->
  this w' = this w
  /\ exists evs,
      console w' = (console w ++ evs)%list
      /\ List.length (filter isPostCall evs) <= 1
      /\ filter isWarning evs = []
      /\ dispatchCalls evs = []
      /\ filter isValidate evs = [].
Proof.
  unfold postResponse, invoke.
  cbv [bind getThis ret throw emit lift].
  explode; intros [= <- <-]; grown; cbn; auto.
Qed.

(** X9.  Serving a request never changes the instance once it is
    initialised (handlers, router, validator and options are only read),
    and in one request at most one handler is dispatched to, the
    validator runs at most once, the post-response hook is called at
    most once, and nothing is written to the console as a warning. *)
Theorem handleRequest_bounded (ext : Externals) (req : Request)
        (args : list JSValue) (w w1 w' : World) (out : Exn + JSValue) :
  autoInit ext w = (inr tt, w1) ->
  handleRequest ext req args w = (out, w') ->
  this w' = this w1
  /\ exists evs,
      console w' = (console w1 ++ evs)%list
      /\ List.length (dispatchCalls evs) <= 1
      /\ List.length (filter isValidate evs) <= 1
      /\ List.length (filter isPostCall evs) <= 1
      /\ filter isWarning evs = [].
Proof.
  intros Hi. erewrite handleRequest_ready by eassumption. unfold bind.
  destruct (pipeline ext req args emptyContext w1) as [[e|[c v]] w2] eqn:Hp;
    destruct (pipeline_counts _ _ _ _ _ Hp)
      as (Ht & evs & Hc & Hpost & Hwarn & Hd & Hv).
  - intros [= <- <-]. split; [exact Ht|]. exists evs.
    rewrite Hpost. cbn. repeat split; auto; lia.
  - cbn [fst snd]. intros Hpr.
    destruct (postResponse_counts _ _ _ _ Hpr)
      as (Ht2 & evs2 & Hc2 & Hpost2 & Hwarn2 & Hd2 & Hv2).
    split; [congruence|]. exists (evs ++ evs2)%list.
    unfold dispatchCalls in *.
    rewrite !filter_app, Hpost, Hwarn, Hwarn2, Hd2, Hv2, !app_nil_r.
    cbn [app]. rewrite Hc2, Hc, app_assoc. repeat split; auto; lia.
Qed.

Lemma handleRequest_bounded_witness :
  let hs := [("getPets", HFun (Petstore.answer "pets"));
             ("postResponseHandler", HFun (Petstore.answer "wrapped"))] in
  let w := Petstore.fresh false (ValidateBool true) hs in
  let w1 := Petstore.started false (ValidateBool true) hs in
  let w' := snd (handleRequest Petstore.ext (Petstore.get "/pets" JNull) [] w) in
  this w' = this w1
  /\ exists evs,
      console w' = (console w1 ++ evs)%list
      /\ List.length (dispatchCalls evs) <= 1
      /\ List.length (filter isValidate evs) <= 1
      /\ List.length (filter isPostCall evs) <= 1
      /\ filter isWarning evs = [].
Proof.
  cbv zeta.
  refine (@handleRequest_bounded Petstore.ext (Petstore.get "/pets" JNull) []
            (Petstore.fresh false (ValidateBool true)
               [("getPets", HFun (Petstore.answer "pets"));
                ("postResponseHandler", HFun (Petstore.answer "wrapped"))])
            _ _ _ _ (surjective_pairing _)).
  vm_compute; reflexivity.
Defined.

(** X10.  When the initialisation that the first request triggers
    rejects, the request is rejected with the same error and in the same
    state: no routing, no validation and no handler call takes place. *)
Theorem handleRequest_init_failure (ext : Externals) (req : Request)
        (args : list JSValue) (w w' : World) (e : Exn) :
  initalized (this w) = false ->
  init ext w = (inl e, w') ->
  handleRequest ext req args w = (inl e, w').
Proof.
  intros Hi Hinit. unfold handleRequest, autoInit.
  cbv [bind getThis]. rewrite Hi. cbn [negb]. now rewrite Hinit.
Qed.

Lemma handleRequest_init_failure_witness :
  let hs := [("getPets", HFun (Petstore.answer "pets"))] in
  handleRequest Petstore.ext (Petstore.get "/pets" JNull) [] (unreadable true hs)
  = (inl (Error "Error opening file api.yml"), unreadable true hs).
Proof.
  cbv zeta.
  apply (@handleRequest_init_failure Petstore.ext); vm_compute; reflexivity.
Defined.

Lemma orElse_first (a b : option HandlerSlot) h :
  a = Some (HFun h) \/ (slotTruthy a = false /\ b = Some (HFun h)) ->
  orElse a b = Some (HFun h).
Proof.
  unfold orElse. intros [->|[Ha ->]]; [reflexivity|]. now rewrite Ha.
Qed.

(** X11.  A request that matches no operation is handed to the handler
    registered under 404 when there is one, whatever is registered under
    notFound, and to the notFound handler only when nothing that counts
    as true sits under 404.  The handler sees the context with the
    request parsed without a path and without validation result; the
    validator is not run on this path. *)
Theorem notFound_handler_chosen (ext : Externals) (req : Request)
        (args : list JSValue) (w w1 : World) (r : OpenAPIRouter)
        (vd : OpenAPIValidator) (n : Handler) :
  ready ext w w1 r vd ->
  routed (matchOperation r req) = None ->
  JSObject.get (handlers (this w1)) "404" = Some (HFun n)
  \/ (slotTruthy (JSObject.get (handlers (this w1)) "404") = false
      /\ JSObject.get (handlers (this w1)) "notFound" = Some (HFun n)) ->
  let call := Call NotFound n (baseContext r req) (withContext (this w1)) args in
  exists out w' evs,
    handleRequest ext req args w = (out, w')
    /\ console w' = (console w1 ++ call :: evs)%list
    /\ dispatchCalls evs = []
    /\ filter isValidate evs = []
    /\ validation (baseContext r req) = None
    /\ (forall e, callResult (this w1) n (baseContext r req) args = inl e ->
                  out = inl e /\ evs = []).
Proof.
  intros (Hi & Hr & Hv) Hm Hn call. subst call.
  apply orElse_first in Hn.
  erewrite handleRequest_ready by eassumption. unfold bind.
  erewrite pipeline_notFound by eassumption.
  erewrite notFound_handler by exact Hn. unfold withCtx.
  destruct (callResult (this w1) n (baseContext r req) args) as [e|v].
  - exists (inl e), (logged w1 [Call NotFound n (baseContext r req)
                                     (withContext (this w1)) args]), [].
    do 5 (split; [reflexivity|]). intros e' [= <-]. now split.
  - cbn [fst snd].
    destruct (postResponse (baseContext r req) v args
                (logged w1 [Call NotFound n (baseContext r req)
                                 (withContext (this w1)) args]))
      as [out w'] eqn:Hpost.
    destruct (postResponse_events _ _ _ _ Hpost)
      as (_ & evs & Hc & Hd & Hval & _).
    exists out, w', evs. split; [reflexivity|]. split.
    + rewrite Hc. cbn [logged console]. now rewrite <- app_assoc.
    + do 3 (split; [assumption || reflexivity|]). discriminate.
Qed.

Lemma notFound_handler_chosen_witness :
  let hs := [("404", HFun (Petstore.answer "by number"));
             ("notFound", HFun (Petstore.answer "by name"))] in
  let w := Petstore.started false (ValidateBool true) hs in
  let req := Petstore.get "/nope" JNull in
  exists out w' evs,
    handleRequest Petstore.ext req [] w = (out, w')
    /\ console w'
       = (console w
            ++ Call NotFound (Petstore.answer "by number")
                    (baseContext Petstore.petRouter req) true [] :: evs)%list
    /\ dispatchCalls evs = []
    /\ filter isValidate evs = []
    /\ validation (baseContext Petstore.petRouter req) = None
    /\ (forall e, callResult (this w) (Petstore.answer "by number")
                    (baseContext Petstore.petRouter req) [] = inl e ->
                  out = inl e /\ evs = []).
Proof.
  cbv zeta.
  refine (@notFound_handler_chosen Petstore.ext (Petstore.get "/nope" JNull) []
            (Petstore.started false (ValidateBool true)
               [("404", HFun (Petstore.answer "by number"));
                ("notFound", HFun (Petstore.answer "by name"))])
            (Petstore.started false (ValidateBool true)
               [("404", HFun (Petstore.answer "by number"));
                ("notFound", HFun (Petstore.answer "by name"))])
            Petstore.petRouter Petstore.petValidator
            (Petstore.answer "by number") _ _ _).
  - split; [|split]; vm_compute; reflexivity.
  - vm_compute; reflexivity.
  - left. vm_compute; reflexivity.
Defined.

(** X12.  A request that matches operation X, passes the validation
    stage and finds nothing that counts as true under X in the handler
    table (no entry, or a value such as undefined or null, and nothing
    inherited: X is not the name of a member of [Object.prototype], and
    the prototype of the table has not been replaced) is answered by the
    handler registered under 501 when there is one, and by the
    notImplemented handler only when nothing that counts as true sits
    under 501; no other handler is dispatched to. *)
Theorem notImplemented_handler_chosen (ext : Externals) (req : Request)
        (args : list JSValue) (w w1 : World) (r : OpenAPIRouter)
        (vd : OpenAPIValidator) (op : Operation) (X : string) (g : bool)
        (n : Handler) :
  ready ext w w1 r vd ->
  routed (matchOperation r req) = Some (op, X) ->
  gateValue (this w1) (routeContext r req op) args = inr g ->
  letsThrough (this w1) vd req op g ->
  slotTruthy (JSObject.get (handlers (this w1)) X) = false ->
  inheritedName X = false ->
  JSObject.get (handlers (this w1)) "__proto__" = None ->
  JSObject.get (handlers (this w1)) "501" = Some (HFun n)
  \/ (slotTruthy (JSObject.get (handlers (this w1)) "501") = false
      /\ JSObject.get (handlers (this w1)) "notImplemented"
         = Some (HFun n)) ->
  let ctx := if g then validatedContext r vd req op
             else routeContext r req op in
  answeredBy (this w1) NotImplemented n ctx args
    (logged w1 (if g then [Validate req op] else []))
    (handleRequest ext req args w)
  /\ exists out w' evs,
      handleRequest ext req args w = (out, w')
      /\ console w' = (console w1 ++ evs)%list
      /\ dispatchCalls evs
         = [Call NotImplemented n ctx (withContext (this w1)) args].
Proof.
  intros Hready Hm Hg Hpass HX Hinh Hproto Hn ctx. apply orElse_first in Hn.
  erewrite handleRequest_passed by eassumption. fold ctx.
  set (pre := if g then [Validate req op] else []).
  assert (Hpre : dispatchCalls pre = []) by (subst pre; now destruct g).
  erewrite afterValidation_fallback; [|exact HX|exact Hinh|exact Hn].
  split; [exact (answered_then_hook NotImplemented n ctx args (logged w1 pre))|].
  cbn [logged this].
  destruct (callResult (this w1) n ctx args) as [e|v].
  - eexists _, _, _. split; [reflexivity|]. split.
    + cbn [logged console]. rewrite <- app_assoc. reflexivity.
    + unfold dispatchCalls in *. rewrite filter_app, Hpre. reflexivity.
  - destruct (postResponse ctx v args
                (logged (logged w1 pre)
                   [Call NotImplemented n ctx (withContext (this w1)) args]))
      as [out w'] eqn:Hpost.
    destruct (postResponse_events _ _ _ _ Hpost)
      as (_ & evs & Hc & Hd & _).
    exists out, w',
      (pre ++ [Call NotImplemented n ctx (withContext (this w1)) args]
           ++ evs)%list.
    split; [reflexivity|]. split.
    + rewrite Hc. cbn [logged console]. now rewrite <- !app_assoc.
    + unfold dispatchCalls in *. rewrite !filter_app, Hpre, Hd.
      reflexivity.
Qed.

Lemma notImplemented_handler_chosen_witness :
  let hs := [("501", HFun (Petstore.answer "by number"));
             ("notImplemented", HFun (Petstore.answer "by name"));
             ("getPets", HVal JNull)] in
  let w := Petstore.started false (ValidateBool false) hs in
  let req := Petstore.get "/pets" JNull in
  let ctx := routeContext Petstore.petRouter req Petstore.getPets in
  handleRequest Petstore.ext req [] w
  = (inr (JStr "by number"),
     logged (logged w [])
       [Call NotImplemented (Petstore.answer "by number") ctx true []])
  /\ exists out w' evs,
      handleRequest Petstore.ext req [] w = (out, w')
      /\ console w' = (console w ++ evs)%list
      /\ dispatchCalls evs
         = [Call NotImplemented (Petstore.answer "by number") ctx true []].
Proof.
  cbv zeta.
  assert (H := @notImplemented_handler_chosen Petstore.ext
            (Petstore.get "/pets" JNull) []
            (Petstore.started false (ValidateBool false)
               [("501", HFun (Petstore.answer "by number"));
                ("notImplemented", HFun (Petstore.answer "by name"));
                ("getPets", HVal JNull)])
            (Petstore.started false (ValidateBool false)
               [("501", HFun (Petstore.answer "by number"));
                ("notImplemented", HFun (Petstore.answer "by name"));
                ("getPets", HVal JNull)])
            Petstore.petRouter Petstore.petValidator Petstore.getPets
            "getPets" false (Petstore.answer "by number")).
  assert (Hready : ready Petstore.ext
            (Petstore.started false (ValidateBool false)
               [("501", HFun (Petstore.answer "by number"));
                ("notImplemented", HFun (Petstore.answer "by name"));
                ("getPets", HVal JNull)])
            (Petstore.started false (ValidateBool false)
               [("501", HFun (Petstore.answer "by number"));
                ("notImplemented", HFun (Petstore.answer "by name"));
                ("getPets", HVal JNull)])
            Petstore.petRouter Petstore.petValidator).
  { split; [|split]; vm_compute; reflexivity. }
  destruct H as [Hans Hevs].
  - exact Hready.
  - vm_compute; reflexivity.
  - vm_compute; reflexivity.
  - left. reflexivity.
  - vm_compute; reflexivity.
  - vm_compute; reflexivity.
  - vm_compute; reflexivity.
  - left. vm_compute; reflexivity.
  - split; [|exact Hevs].
    refine (proj1 (proj2 Hans) (JStr "by number") _ _);
      vm_compute; reflexivity.
Defined.

(** X13.  When the operation's handler throws (or its promise rejects),
    [handleRequest] rejects with that very error and the post-response
    hook is not called, registered or not: the handler call is the last
    event of the run. *)
Theorem handler_error_skips_hook (ext : Externals) (req : Request)
        (args : list JSValue) (w w1 : World) (r : OpenAPIRouter)
        (vd : OpenAPIValidator) (op : Operation) (X : string) (g : bool)
        (h : Handler) (e : Exn) :
  ready ext w w1 r vd ->
  routed (matchOperation r req) = Some (op, X) ->
  JSObject.get (handlers (this w1)) X = Some (HFun h) ->
  gateValue (this w1) (routeContext r req op) args = inr g ->
  letsThrough (this w1) vd req op g ->
  let ctx := if g then validatedContext r vd req op
             else routeContext r req op in
  callResult (this w1) h ctx args = inl e ->
  handleRequest ext req args w
  = (inl e,
     logged w1 ((if g then [Validate req op] else [])
                  ++ [Call RouteHandler h ctx (withContext (this w1)) args])).
Proof.
  intros Hready Hm Hh Hg Hpass ctx He.
  erewrite handleRequest_passed by eassumption. fold ctx.
  erewrite afterValidation_route by exact Hh. cbn [logged this].
  rewrite He. unfold logged. cbn [this console]. now rewrite <- app_assoc.
Qed.

Lemma handler_error_skips_hook_witness :
  let failing : Handler := fun _ _ => inl (Thrown (JStr "boom")) in
  let hs := [("getPets", HFun failing);
             ("postResponseHandler", HFun (Petstore.answer "wrapped"))] in
  let w := Petstore.started false (ValidateBool false) hs in
  let req := Petstore.get "/pets" JNull in
  handleRequest Petstore.ext req [] w
  = (inl (Thrown (JStr "boom")),
     logged w ([] ++ [Call RouteHandler failing
                           (routeContext Petstore.petRouter req Petstore.getPets)
                           true []])).
Proof.
  cbv zeta.
  refine (@handler_error_skips_hook Petstore.ext (Petstore.get "/pets" JNull)
            []
            (Petstore.started false (ValidateBool false)
               [("getPets", HFun (fun _ _ => inl (Thrown (JStr "boom"))));
                ("postResponseHandler", HFun (Petstore.answer "wrapped"))])
            (Petstore.started false (ValidateBool false)
               [("getPets", HFun (fun _ _ => inl (Thrown (JStr "boom"))));
                ("postResponseHandler", HFun (Petstore.answer "wrapped"))])
            Petstore.petRouter Petstore.petValidator Petstore.getPets
            "getPets" false (fun _ _ => inl (Thrown (JStr "boom")))
            (Thrown (JStr "boom")) _ _ _ _ _ _).
  - split; [|split]; vm_compute; reflexivity.
  - vm_compute; reflexivity.
  - vm_compute; reflexivity.
  - vm_compute; reflexivity.
  - left. reflexivity.
  - vm_compute; reflexivity.
Defined.

(** X14.  When the validate predicate throws, [handleRequest] rejects
    with that error before anything else happens: the validator is not
    run and no handler, fallback or hook is called. *)
Theorem predicate_error_rejects (ext : Externals) (req : Request)
        (args : list JSValue) (w w1 : World) (r : OpenAPIRouter)
        (vd : OpenAPIValidator) (op : Operation) (X : string) (e : Exn) :
  ready ext w w1 r vd ->
  routed (matchOperation r req) = Some (op, X) ->
  gateValue (this w1) (routeContext r req op) args = inl e ->
  handleRequest ext req args w = (inl e, w1).
Proof.
  intros (Hi & Hr & Hv) Hm Hg.
  erewrite handleRequest_ready by eassumption.
  unfold bind at 1. erewrite pipeline_routed by eassumption.
  unfold bind at 1. now rewrite validateGate_value, Hg.
Qed.

Lemma predicate_error_rejects_witness :
  let moody : BoolPredicate := fun _ _ => inl (Thrown (JStr "no")) in
  let hs := [("getPets", HFun (Petstore.answer "pets"))] in
  let w := Petstore.started false (ValidatePredicate moody) hs in
  handleRequest Petstore.ext (Petstore.get "/pets" JNull) [] w
  = (inl (Thrown (JStr "no")), w).
Proof.
  cbv zeta.
  refine (@predicate_error_rejects Petstore.ext (Petstore.get "/pets" JNull)
            []
            (Petstore.started false
               (ValidatePredicate (fun _ _ => inl (Thrown (JStr "no"))))
               [("getPets", HFun (Petstore.answer "pets"))])
            _ Petstore.petRouter Petstore.petValidator Petstore.getPets
            "getPets" (Thrown (JStr "no")) _ _ _).
  - split; [|split]; vm_compute; reflexivity.
  - vm_compute; reflexivity.
  - vm_compute; reflexivity.
Defined.

(** X15.  A value that counts as true but is not a function, sitting
    under the operationId of the matched operation (the constructor
    accepts such a table, and [init] marks the instance initialised
    before it refuses the entry), makes the request fail with a type
    error: it is neither called nor treated as a missing handler, and no
    fallback handler is tried. *)
Theorem non_function_slot_type_error (ext : Externals) (req : Request)
        (args : list JSValue) (w w1 : World) (r : OpenAPIRouter)
        (vd : OpenAPIValidator) (op : Operation) (X : string) (g : bool)
        (v : JSValue) :
  ready ext w w1 r vd ->
  routed (matchOperation r req) = Some (op, X) ->
  JSObject.get (handlers (this w1)) X = Some (HVal v) ->
  truthy v = true ->
  gateValue (this w1) (routeContext r req op) args = inr g ->
  letsThrough (this w1) vd req op g ->
  exists msg,
    handleRequest ext req args w
    = (inl (TypeError msg), logged w1 (if g then [Validate req op] else [])).
Proof.
  intros Hready Hm Hh Hv Hg Hpass.
  erewrite handleRequest_passed by eassumption.
  unfold afterValidation, dispatch, invoke.
  cbv [bind getThis ret throw emit lift]. cbn [logged this].
  rewrite (@handlerAt_own ext _ _ _ Hh). cbn [slotTruthy]. rewrite Hv.
  cbn [negb]. eexists. reflexivity.
Qed.

Lemma non_function_slot_type_error_witness :
  let hs := [("getPets", HVal (JStr "oops"))] in
  let w := Petstore.fresh false (ValidateBool false) hs in
  let w1 := snd (handleRequest Petstore.ext (Petstore.get "/pets" JNull) [] w) in
  fst (handleRequest Petstore.ext (Petstore.get "/pets" JNull) [] w)
  = inl (Error "Handler should be a function")
  /\ exists msg,
      handleRequest Petstore.ext (Petstore.get "/pets" JNull) [] w1
      = (inl (TypeError msg), logged w1 []).
Proof.
  cbv zeta. split; [vm_compute; reflexivity|].
  refine (@non_function_slot_type_error Petstore.ext
            (Petstore.get "/pets" JNull) [] _ _
            Petstore.petRouter Petstore.petValidator Petstore.getPets
            "getPets" false (JStr "oops") _ _ _ _ _ _).
  - split; [|split]; vm_compute; reflexivity.
  - vm_compute; reflexivity.
  - vm_compute; reflexivity.
  - reflexivity.
  - vm_compute; reflexivity.
  - left. reflexivity.
Defined.



(** X17.  Registering and then dispatching: on an initialised instance,
    once [register] has accepted a function under operationId X, a
    request that matches operation X and passes the validation stage is
    answered by that function, called once on the context of the run,
    and no other handler is dispatched to. *)
Theorem register_then_dispatch (ext : Externals) (req : Request)
        (args : list JSValue) (w w2 : World) (r : OpenAPIRouter)
        (vd : OpenAPIValidator) (op : Operation) (X : string) (g : bool)
        (h : Handler) :
  initalized (this w) = true ->
  router (this w) = Some r -> validator (this w) = Some vd ->
  register (RegisterOne X (HFun h)) w = (inr tt, w2) ->
  routed (matchOperation r req) = Some (op, X) ->
  gateValue (this w2) (routeContext r req op) args = inr g ->
  letsThrough (this w2) vd req op g ->
  let ctx := if g then validatedContext r vd req op
             else routeContext r req op in
  answeredBy (this w2) RouteHandler h ctx args
    (logged w2 (if g then [Validate req op] else []))
    (handleRequest ext req args w2)
  /\ exists out w' evs,
      handleRequest ext req args w2 = (out, w')
      /\ console w' = (console w2 ++ evs)%list
      /\ dispatchCalls evs
         = [Call RouteHandler h ctx (withContext (this w2)) args].
Proof.
  cbn [register]. intros Hi Hr Hv Hreg Hm Hg Hpass. cbv zeta.
  destruct (registerHandler_frame _ _ _ Hreg) as (Hi2 & Hr2 & Hv2 & _).
  destruct (registerHandler_registers _ _ _ Hreg) as (Hfound & _).
  assert (Hready : ready ext w2 w2 r vd).
  { repeat split; [|congruence|congruence].
    unfold autoInit. cbv [bind getThis ret]. now rewrite Hi2, Hi. }
  split.
  - exact (@found_handler_answers ext req args w2 w2 r vd op X h g
             Hready Hm (@handlerAt_own ext _ _ _ Hfound) Hg Hpass).
  - destruct (@route_handler_only ext req args w2 w2 r vd op X h g
                Hready Hm Hfound Hg Hpass)
      as (out & w' & evs & Hrun & _ & Hc & Hd).
    exists out, w', evs. auto.
Qed.

Lemma register_then_dispatch_witness :
  let w := Petstore.started true (ValidateBool true) [] in
  let w2 := snd (register (RegisterOne "getPets"
                             (HFun (Petstore.answer "pets"))) w) in
  let req := Petstore.get "/pets" JNull in
  let ctx := validatedContext Petstore.petRouter Petstore.petValidator
               req Petstore.getPets in
  handleRequest Petstore.ext req [] w2
  = (inr (JStr "pets"),
     logged (logged w2 [Validate req Petstore.getPets])
       [Call RouteHandler (Petstore.answer "pets") ctx true []])
  /\ exists out w' evs,
      handleRequest Petstore.ext req [] w2 = (out, w')
      /\ console w' = (console w2 ++ evs)%list
      /\ dispatchCalls evs
         = [Call RouteHandler (Petstore.answer "pets") ctx
                 (withContext (this w2)) []].
Proof.
  cbv zeta.
  assert (H := @register_then_dispatch Petstore.ext
            (Petstore.get "/pets" JNull) []
            (Petstore.started true (ValidateBool true) [])
            (snd (register (RegisterOne "getPets"
                              (HFun (Petstore.answer "pets")))
                    (Petstore.started true (ValidateBool true) [])))
            Petstore.petRouter Petstore.petValidator Petstore.getPets
            "getPets" true (Petstore.answer "pets")).
  destruct H as [Hans Hevs].
  - vm_compute; reflexivity.
  - vm_compute; reflexivity.
  - vm_compute; reflexivity.
  - vm_compute; reflexivity.
  - vm_compute; reflexivity.
  - vm_compute; reflexivity.
  - right. left. vm_compute; reflexivity.
  - split; [|exact Hevs].
    refine (proj1 (proj2 Hans) (JStr "pets") _ _);
      vm_compute; reflexivity.
Defined.

(** ** Mock selection: options that cannot be honoured *)

Lemma resolveStatus_withoutCode ext rs opts :
  (forall c, code opts = Some c ->
             c = 0%Z \/ JSObject.get rs (numToString c) = None) ->
  resolveStatus ext rs opts = resolveStatus ext rs (withoutCode opts).
Proof.
  intros Hc. unfold resolveStatus. cbn [code withoutCode].
  destruct (code opts) as [c|]; [|reflexivity].
  destruct (Hc c eq_refl) as [->|Hg]; [reflexivity|].
  rewrite Hg. now destruct (truthy (JNum c)).
Qed.

(** X18.  A [code] option that names no declared response (or is 0) is
    ignored without complaint: [mockResponseForOperation] answers as if
    no code had been given, with the response and the status of the
    default-status match. *)
Theorem mock_ignores_undeclared_code (ext : Externals) (w : World)
        (opId : string) (opts : MockOpts) :
  (forall r op rs c,
      router (this w) = Some r -> getOperation r opId = Some op ->
      responses op = Some rs -> code opts = Some c ->
      c = 0%Z \/ JSObject.get rs (numToString c) = None) ->
  mockResponseForOperation ext opId opts w
  = mockResponseForOperation ext opId (withoutCode opts) w.
Proof.
  intros Hc. unfold mockResponseForOperation.
  cbv [bind getThis theRouter ret throw lift].
  destruct (router (this w)) as [r|] eqn:Hr; [|reflexivity].
  destruct (getOperation r opId) as [op|] eqn:Hop; [|reflexivity].
  destruct (responses op) as [rs|] eqn:Hrs; [|reflexivity].
  rewrite <- (@resolveStatus_withoutCode ext rs opts);
    [reflexivity|].
  intros c Hcode. now apply (Hc r op rs c).
Qed.

Lemma mock_ignores_undeclared_code_witness :
  let w := Petstore.started false (ValidateBool true) [] in
  let opts := {| code := Some 500%Z; mediaType := None; exampleName := None |} in
  mockResponseForOperation Petstore.ext "getPets" opts w
  = mockResponseForOperation Petstore.ext "getPets" Petstore.noOpts w.
Proof.
  cbv zeta.
  refine (@mock_ignores_undeclared_code Petstore.ext
            (Petstore.started false (ValidateBool true) []) "getPets"
            {| code := Some 500%Z; mediaType := None; exampleName := None |} _).
  intros r op rs c [= <-] [= <-] [= <-] [= <-]. right. reflexivity.
Defined.

(** X19.  [mockResponseForOperation] reads nothing of the instance but
    its router and writes nothing: the instance and the console are left
    as they were, and two instances with the same router (whatever their
    handlers, mode or options) give the same answer. *)
Theorem mock_reads_router_only (ext : Externals) (w w2 : World)
        (opId : string) (opts : MockOpts) :
  snd (mockResponseForOperation ext opId opts w) = w
  /\ (router (this w) = router (this w2) ->
      fst (mockResponseForOperation ext opId opts w)
      = fst (mockResponseForOperation ext opId opts w2)).
Proof.
  split.
  - unfold mockResponseForOperation.
    cbv [bind getThis theRouter ret throw lift]. explode; reflexivity.
  - intros Hr. unfold mockResponseForOperation.
    cbv [bind getThis theRouter ret throw lift]. rewrite <- Hr.
    explode; reflexivity.
Qed.

Lemma mock_reads_router_only_witness :
  let w := Petstore.started false (ValidateBool true) [] in
  let w2 := Petstore.started true (ValidateBool false)
              [("getPets", HFun (Petstore.answer "pets"))] in
  fst (mockResponseForOperation Petstore.ext "getPets" Petstore.noOpts w)
  = fst (mockResponseForOperation Petstore.ext "getPets" Petstore.noOpts w2).
Proof.
  cbv zeta.
  apply (proj2 (@mock_reads_router_only Petstore.ext
                  (Petstore.started false (ValidateBool true) [])
                  (Petstore.started true (ValidateBool false)
                     [("getPets", HFun (Petstore.answer "pets"))])
                  "getPets" Petstore.noOpts)).
  vm_compute; reflexivity.
Defined.

(** X20.  A media type entry that declares an empty map of named
    examples and no inline example that counts as true makes
    [mockResponseForOperation] throw a type error, with or without an
    [example] option and even when the entry has a schema: the first
    entry of the empty map is read. *)
Theorem mock_empty_examples_throws (ext : Externals) (w : World)
        (opId : string) (opts : MockOpts) (st : Z) (m : MediaTypeObject) :
  resolvesTo ext w opId opts st m ->
  examples m = Some [] -> truthy (example m) = false ->
  exists msg,
    mockResponseForOperation ext opId opts w = (inl (TypeError msg), w).
Proof.
  intros Hres Hex Hin. rewrite (mock_resolved Hres).
  unfold mockFrom, selectMock. rewrite Hex, Hin.
  destruct (exampleName opts) as [n|]; [destruct (truthy (JStr n))|];
    eexists; reflexivity.
Qed.

Lemma mock_empty_examples_throws_witness :
  exists msg,
    mockResponseForOperation Petstore.ext "listOwners" Petstore.noOpts
      (Petstore.started false (ValidateBool true) [])
    = (inl (TypeError msg), Petstore.started false (ValidateBool true) []).
Proof.
  refine (@mock_empty_examples_throws Petstore.ext
            (Petstore.started false (ValidateBool true) []) "listOwners"
            Petstore.noOpts 200 Petstore.noExamplesListed _ eq_refl eq_refl).
  exists Petstore.petRouter, Petstore.listOwners. eexists _, _, _.
  repeat split; reflexivity.
Defined.

(** X21.  [mockResponseForOperation] does not initialise the instance: on
    an instance fresh from the constructor it throws a type error for
    every operationId and every option, where [handleRequest] would have
    initialised it first. *)
Theorem mock_before_init_throws (ext : Externals) (o : Options)
        (c : list Event) (opId : string) (opts : MockOpts) :
  exists msg,
    mockResponseForOperation ext opId opts
      {| this := constructor o; console := c |}
    = (inl (TypeError msg), {| this := constructor o; console := c |}).
Proof. eexists. reflexivity. Qed.

Lemma selectMock_withoutExample ext m opts :
  exampleName opts = Some ""
  \/ (forall ex, requestedExample m opts = Some ex ->
                 truthy (value ex) = false) ->
  selectMock ext m opts = selectMock ext m (withoutExample opts).
Proof.
  intros H. unfold selectMock, requestedExample in *.
  cbn [exampleName withoutExample].
  destruct (exampleName opts) as [n|]; [|reflexivity].
  destruct (examples m) as [exs|]; [|reflexivity].
  destruct H as [[= ->]|H]; [reflexivity|].
  destruct (truthy (JStr n)); [|reflexivity].
  destruct (JSObject.get exs n) as [ex|]; [|reflexivity].
  now rewrite (H ex eq_refl).
Qed.

(** X22.  An [example] option that cannot be honoured is ignored: when
    the name is the empty string, names no declared example, or names
    one whose value counts as false (absent, null, 0, false, the empty
    string), [mockResponseForOperation] answers exactly as it does
    without the option. *)
Theorem mock_ignores_unusable_example (ext : Externals) (w : World)
        (opId : string) (opts : MockOpts) (st : Z) (m : MediaTypeObject) :
  resolvesTo ext w opId opts st m ->
  exampleName opts = Some ""
  \/ (forall ex, requestedExample m opts = Some ex ->
                 truthy (value ex) = false) ->
  mockResponseForOperation ext opId opts w
  = mockResponseForOperation ext opId (withoutExample opts) w.
Proof.
  intros Hres Hno.
  assert (Hres' : resolvesTo ext w opId (withoutExample opts) st m).
  { destruct Hres as (r & op & rs & rr & cont & H).
    exists r, op, rs, rr, cont. exact H. }
  rewrite (mock_resolved Hres), (mock_resolved Hres').
  unfold mockFrom. now rewrite (selectMock_withoutExample ext m opts Hno).
Qed.

Lemma mock_ignores_unusable_example_witness :
  let w := Petstore.started false (ValidateBool true) [] in
  let opts := {| code := None; mediaType := None;
                 exampleName := Some "bird" |} in
  mockResponseForOperation Petstore.ext "getPetById" opts w
  = mockResponseForOperation Petstore.ext "getPetById" (withoutExample opts) w.
Proof.
  cbv zeta.
  refine (@mock_ignores_unusable_example Petstore.ext
            (Petstore.started false (ValidateBool true) []) "getPetById"
            {| code := None; mediaType := None; exampleName := Some "bird" |}
            200 Petstore.namedExamples _ _).
  - exists Petstore.petRouter, Petstore.getPetById. eexists _, _, _.
    repeat split; reflexivity.
  - right. intros ex H. discriminate H.
Defined.
